(** * Flow classification gRPC server: a shallow embedding of
      [classification/classifier_server.py] and its checked properties.

    The Python handlers are embedded as computations in a small state and
    exception monad over a [World] that holds the class attribute
    [Classifier.model], the log of observable calls ([print], [predict],
    [open], the grpc server calls) and the status codes set on call
    contexts.  A message is the finite map of its attributes, so that a
    missing attribute raises [AttributeError] as [msg.Name] does. *)

From stdpp Require Import base option list strings gmap pretty.
From Stdlib Require Import ZArith Lia.

(** ** Python values and exceptions *)

Inductive exn : Type :=
| AttributeError (name : string)
| NameError (name : string)
| IndexError
| FileNotFoundError (path : string)
| PermissionError (path : string)
| UnpicklingError
| ValueError (s : string)
| RuntimeError (code : Z).

Inductive Result (A : Type) : Type :=
| Return (a : A)
| Raise (e : exn).
Arguments Return {A} a.
Arguments Raise {A} e.

(** The unpickled object: the program only ever calls its [predict] method,
    on a list of rows, and indexes what comes back.  sklearn's [predict]
    does not modify the estimator and is a function of the rows. *)
Record Model : Type := mkModel {
  predict : list (list Z) → Result (list Z)
}.

(** [flow_pb2.FlowMessage], seen through attribute access. *)
Abbreviation FlowMessage := (gmap string Z).

(** [flow_pb2.FlowMessageClass(malicious = ...)]. *)
Record FlowMessageClass : Type := mkFlowMessageClass {
  malicious : bool
}.

Inductive StatusCode : Type :=
| OK | UNKNOWN | INVALID_ARGUMENT | INTERNAL | CANCELLED.

(** A [grpc.ServicerContext] is identified by the call it belongs to. *)
Abbreviation ServicerContext := nat.

Inductive Event : Type :=
| EvPrint (s : string)
| EvPredict (rows : list (list Z))
| EvOpen (path mode : string)
| EvPickleLoad
| EvGrpcServer (max_workers : Z)
| EvAddServicer
| EvAddInsecurePort (port : Z)
| EvServerStart
| EvWaitForTermination.

Record World : Type := mkWorld {
  Classifier_model : option Model;
  events : list Event;
  context_code : gmap nat StatusCode
}.

Definition log_append (evs : list Event) (w : World) : World :=
  {| Classifier_model := Classifier_model w;
     events := events w ++ evs;
     context_code := context_code w |}.

(** ** The monad of the embedding *)

Definition M (A : Type) : Type := World → Result A * World.

#[global] Instance M_ret : MRet M := λ A a w, (Return a, w).

#[global] Instance M_bind : MBind M := λ A B f c w,
  match c w with
  | (Return a, w') => f a w'
  | (Raise e, w') => (Raise e, w')
  end.

Definition raise {A : Type} (e : exn) : M A := λ w, (Raise e, w).

Definition lift {A : Type} (r : Result A) : M A := λ w, (r, w).

Definition emit (e : Event) : M unit := λ w, (Return tt, log_append [e] w).

Definition set_model (m : Model) : M unit := λ w,
  (Return tt,
   {| Classifier_model := Some m;
      events := events w;
      context_code := context_code w |}).

(** [Classifier.model]: the class attribute read. *)
Definition get_model : M Model := λ w,
  match Classifier_model w with
  | Some m => (Return m, w)
  | None => (Raise (NameError "Classifier"), w)
  end.

(** [msg.name] *)
Definition getattr (msg : FlowMessage) (name : string) : M Z :=
  match msg !! name with
  | Some v => mret v
  | None => raise (AttributeError name)
  end.

(** [result[i]] *)
Definition getitem (result : list Z) (i : nat) : M Z :=
  match result !! i with
  | Some v => mret v
  | None => raise IndexError
  end.

(** [model.predict(rows)] *)
Definition call_predict (model : Model) (rows : list (list Z)) : M (list Z) :=
  emit (EvPredict rows);; lift (predict model rows).

(** ** class Classifier *)

Module Classifier.

Definition classify (msg : FlowMessage) : M (list Z) :=
  model ← get_model;
  L4SrcPort ← getattr msg "L4SrcPort";
  L4DstPort ← getattr msg "L4DstPort";
  Protocol ← getattr msg "Protocol";
  L7Proto ← getattr msg "L7Proto";
  InBytes ← getattr msg "InBytes";
  OutBytes ← getattr msg "OutBytes";
  InPkts ← getattr msg "InPkts";
  OutPkts ← getattr msg "OutPkts";
  TCPFlags ← getattr msg "TCPFlags";
  FlowDurationMilliseconds ← getattr msg "FlowDurationMilliseconds";
  call_predict model
    [[L4SrcPort; L4DstPort; Protocol; L7Proto; InBytes; OutBytes;
      InPkts; OutPkts; TCPFlags; FlowDurationMilliseconds]].

End Classifier.

(** ** class FlowMessageClassifierServicer *)

(** The request iterator handed to a streaming handler: each [next] gives a
    message, ends the iteration, or raises. *)
Inductive request_iterator : Type :=
| IterStop
| IterRaise (e : exn)
| IterNext (msg : FlowMessage) (rest : request_iterator).

(** The generator object a call of [ClassifyStreaming] returns: not started,
    suspended at its [yield], or finished. *)
Inductive generator : Type :=
| GenCreated (it : request_iterator)
| GenSuspended (it : request_iterator)
| GenFinished.

Inductive next_result : Type :=
| Yield (v : FlowMessageClass)
| StopIteration
| Raised (e : exn).

Module FlowMessageClassifierServicer.

Definition Classify (request : FlowMessage) (context : ServicerContext)
  : M FlowMessageClass :=
  result ← Classifier.classify request;
  r0 ← getitem result 0;
  let result := if (r0 =? 1)%Z then true else false in
  mret {| malicious := result |}.

(** One turn of the [for] loop of [ClassifyStreaming], from the loop head to
    the [yield], the end of the iteration or an exception. *)
Definition ClassifyStreaming_loop (it : request_iterator)
    (context : ServicerContext) (w : World)
  : next_result * generator * World :=
  match it with
  | IterStop => (StopIteration, GenFinished, w)
  | IterRaise e => (Raised e, GenFinished, w)
  | IterNext msg rest =>
      match (result ← Classifier.classify msg;
             r0 ← getitem result 0;
             let result := if (r0 =? 1)%Z then true else false in
             mret {| malicious := result |}) w with
      | (Return v, w') => (Yield v, GenSuspended rest, w')
      | (Raise e, w') => (Raised e, GenFinished, w')
      end
  end.

(** Calling the handler only creates the generator. *)
Definition ClassifyStreaming (it : request_iterator)
    (context : ServicerContext) : generator :=
  GenCreated it.

(** [next(gen)] *)
Definition ClassifyStreaming_next (g : generator) (context : ServicerContext)
    (w : World) : next_result * generator * World :=
  match g with
  | GenCreated it =>
      ClassifyStreaming_loop it context (log_append [EvPrint "mega printa"] w)
  | GenSuspended it => ClassifyStreaming_loop it context w
  | GenFinished => (StopIteration, GenFinished, w)
  end.

End FlowMessageClassifierServicer.

(** ** The caller's side of a streaming call *)

Inductive stream_end : Type :=
| ClosedOk
| ClosedError (e : exn).

(** The server side of the RPC library drains the generator: every yielded
    value is sent as a response; the call ends when the generator stops or
    raises.  [None] means the bound on the number of [next] calls was hit. *)
Fixpoint consume (fuel : nat) (g : generator) (context : ServicerContext)
    (w : World) : list FlowMessageClass * option stream_end * World :=
  match fuel with
  | O => ([], None, w)
  | S fuel' =>
      match FlowMessageClassifierServicer.ClassifyStreaming_next g context w with
      | (Yield v, g', w') =>
          let '(vs, e, w'') := consume fuel' g' context w' in (v :: vs, e, w'')
      | (StopIteration, _, w') => ([], Some ClosedOk, w')
      | (Raised e, _, w') => ([], Some (ClosedError e), w')
      end
  end.

Fixpoint iterator_length (it : request_iterator) : nat :=
  match it with
  | IterNext _ rest => S (iterator_length rest)
  | _ => O
  end.

(** A whole streaming call: one more [next] than there are messages. *)
Definition run_stream (it : request_iterator) (context : ServicerContext)
    (w : World) : list FlowMessageClass * option stream_end * World :=
  consume (S (iterator_length it))
    (FlowMessageClassifierServicer.ClassifyStreaming it context) context w.

(** A client that sends [msgs] and then closes its side normally. *)
Definition iter_of_list (msgs : list FlowMessage) : request_iterator :=
  foldr IterNext IterStop msgs.

(** The status the caller of a call sees.  This is the rule of the grpc
    server library, not of this program: the code the handler set on the
    context if it set one, else [OK] for a handler that returned and
    [UNKNOWN] for one that raised. *)
Definition surfaced_status {A : Type} (r : Result A)
    (context : ServicerContext) (w : World) : StatusCode :=
  match context_code w !! context, r with
  | Some c, _ => c
  | None, Return _ => OK
  | None, Raise _ => UNKNOWN
  end.

(** The streaming operation in the words of its description: the unary
    [Classify] applied to each record in turn, stopping at the first one
    that fails. *)
Fixpoint spec_map_Classify (msgs : list FlowMessage)
    (context : ServicerContext) (w : World)
  : list FlowMessageClass * stream_end * World :=
  match msgs with
  | [] => ([], ClosedOk, w)
  | msg :: rest =>
      match FlowMessageClassifierServicer.Classify msg context w with
      | (Return v, w') =>
          let '(vs, e, w'') := spec_map_Classify rest context w' in
          (v :: vs, e, w'')
      | (Raise e, w') => ([], ClosedError e, w')
      end
  end.

(** ** Module execution: what running the file does *)

Inductive Artifact : Type :=
| Missing
| Unreadable
| Corrupt
| Pickled (m : Model).

(** What the process finds around it: the state of the model file, the
    environment variables, the name the module runs under, and for each
    port whether binding it fails, and with which exception. *)
Record Env : Type := mkEnv {
  artifact : Artifact;
  environ : gmap string string;
  dunder_name : string;
  bind_error : Z → option exn
}.

Definition model_path : string := "flow-or-malicious.model".

(** [pickle.load(open('flow-or-malicious.model', 'rb'))] *)
Definition pickle_load_open (env : Env) : M Model :=
  emit (EvOpen model_path "rb");;
  match artifact env with
  | Missing => raise (FileNotFoundError model_path)
  | Unreadable => raise (PermissionError model_path)
  | Corrupt => emit EvPickleLoad;; raise UnpicklingError
  | Pickled m => emit EvPickleLoad;; mret m
  end.

(** The body of [class Classifier]. *)
Definition class_Classifier (env : Env) : M unit :=
  m ← pickle_load_open env;
  set_model m.

(** [server.add_insecure_port(f'[::]:{port}')]: the call is logged with the
    port number put into the address; it raises when the bind fails. *)
Definition add_insecure_port (env : Env) (port : Z) : M unit :=
  emit (EvAddInsecurePort port);;
  match bind_error env port with
  | Some e => raise e
  | None => mret tt
  end.

Definition serve (env : Env) (port : Z) : M unit :=
  emit (EvGrpcServer 10);;
  emit EvAddServicer;;
  add_insecure_port env port;;
  emit EvServerStart;;
  emit (EvPrint ("started listening on: [::]:" +:+ pretty port));;
  emit EvWaitForTermination.

Section Startup.

(** Python's [int] on a string. *)
Variable py_int : string → Result Z.

Definition module_body (env : Env) : M unit :=
  class_Classifier env;;
  if decide (dunder_name env = "__main__") then
    port ← match environ env !! "GRPC_SERVER_PORT" with
            | Some s => lift (py_int s)
            | None => mret 50051%Z
            end;
    serve env port
  else mret tt.

Definition initial_world : World :=
  {| Classifier_model := None; events := []; context_code := ∅ |}.

(** The interpreter's exit status: 1 when an exception reaches the top. *)
Definition run_process (env : Env) : Z * World :=
  match module_body env initial_world with
  | (Return _, w) => (0%Z, w)
  | (Raise _, w) => (1%Z, w)
  end.

End Startup.


(** ** What a classification computes, as a function of model and message *)

(** The attribute names in the order [classify] reads them. *)
Definition feature_names : list string :=
  ["L4SrcPort"; "L4DstPort"; "Protocol"; "L7Proto"; "InBytes"; "OutBytes";
   "InPkts"; "OutPkts"; "TCPFlags"; "FlowDurationMilliseconds"].

(** Reading the attributes [names] of [msg] from left to right. *)
Fixpoint extract (msg : FlowMessage) (names : list string) : Result (list Z) :=
  match names with
  | [] => Return []
  | n :: ns =>
      match msg !! n with
      | None => Raise (AttributeError n)
      | Some v =>
          match extract msg ns with
          | Return vs => Return (v :: vs)
          | Raise e => Raise e
          end
      end
  end.

(** The answer and the logged calls of one classification. *)
Definition outcome (model : option Model) (msg : FlowMessage)
  : Result FlowMessageClass * list Event :=
  match model with
  | None => (Raise (NameError "Classifier"), [])
  | Some m =>
      match extract msg feature_names with
      | Raise e => (Raise e, [])
      | Return row =>
          (match predict m [row] with
           | Raise e => Raise e
           | Return [] => Raise IndexError
           | Return (l :: _) => Return {| malicious := (l =? 1)%Z |}
           end, [EvPredict [row]])
      end
  end.

(** The two kinds of failure of a unary call. *)
Definition malformed (msg : FlowMessage) : Prop :=
  ∃ e, extract msg feature_names = Raise e.

Definition model_fails (model : Model) (msg : FlowMessage) : Prop :=
  ∃ row e, extract msg feature_names = Return row
           ∧ predict model [row] = Raise e.

(** The status rule "invalid argument for a malformed record, internal for a
    failing model", for calls on a context no code was set on before. *)
Definition status_by_failure_kind : Prop :=
  ∀ (msg : FlowMessage) (context : ServicerContext) (w : World)
    (model : Model),
    Classifier_model w = Some model →
    context_code w !! context = None →
    let '(r, w') := FlowMessageClassifierServicer.Classify msg context w in
    (malformed msg → surfaced_status r context w' = INVALID_ARGUMENT)
    ∧ (model_fails model msg → surfaced_status r context w' = INTERNAL).

Definition is_open (e : Event) : bool :=
  match e with EvOpen _ _ => true | _ => false end.

Definition is_load (e : Event) : bool :=
  match e with EvOpen _ _ | EvPickleLoad => true | _ => false end.

Definition is_listen (e : Event) : bool :=
  match e with
  | EvGrpcServer _ | EvAddServicer | EvAddInsecurePort _ | EvServerStart
  | EvWaitForTermination => true
  | _ => false
  end.

(** The operations a running server performs on the world. *)
Inductive operation : Type :=
| OpClassify (msg : FlowMessage) (context : ServicerContext)
| OpClassifierClassify (msg : FlowMessage)
| OpNext (g : generator) (context : ServicerContext)
| OpStream (it : request_iterator) (context : ServicerContext).

Definition run_operation (op : operation) (w : World) : World :=
  match op with
  | OpClassify msg context =>
      (FlowMessageClassifierServicer.Classify msg context w).2
  | OpClassifierClassify msg => (Classifier.classify msg w).2
  | OpNext g context =>
      (FlowMessageClassifierServicer.ClassifyStreaming_next g context w).2
  | OpStream it context => (run_stream it context w).2
  end.

Definition run_operations (ops : list operation) (w : World) : World :=
  foldl (λ w op, run_operation op w) w ops.

(** What no request-time operation changes: the stored model, the codes set
    on contexts, and the record of loads. *)
Definition same_store (w w' : World) : Prop :=
  Classifier_model w' = Classifier_model w
  ∧ context_code w' = context_code w
  ∧ filter is_load (events w') = filter is_load (events w).

(** ** Sample data *)

(** The record of the label-mapping example. *)
Definition sample_msg : FlowMessage :=
  list_to_map
    [("L4SrcPort", 443%Z); ("L4DstPort", 51000%Z); ("Protocol", 6%Z);
     ("L7Proto", 91%Z); ("InBytes", 1000%Z); ("OutBytes", 500%Z);
     ("InPkts", 10%Z); ("OutPkts", 8%Z); ("TCPFlags", 24%Z);
     ("FlowDurationMilliseconds", 1200%Z)].

(** The same flow towards port 80. *)
Definition sample_msg_80 : FlowMessage := <["L4DstPort" := 80%Z]> sample_msg.

(** The sample record with a field the model does not look at. *)
Definition sample_msg_extra : FlowMessage := <["SrcAddr" := 167772161%Z]> sample_msg.

(** A message object lacking one of the attributes. *)
Definition sample_msg_missing : FlowMessage := delete "InBytes" sample_msg.

(** A one-node tree: label 1 for a destination port above 1023, else 0. *)
Definition sample_model : Model :=
  {| predict := λ rows,
       Return ((λ row : list Z,
                  match row !! 1%nat with
                  | Some p => if (1023 <? p)%Z then 1%Z else 0%Z
                  | None => 0%Z
                  end) <$> rows) |}.

(** A model whose [predict] raises on rows with a protocol other than 6. *)
Definition sample_failing_model : Model :=
  {| predict := λ rows,
       if forallb (λ row : list Z, bool_decide (row !! 2%nat = Some 6%Z)) rows
       then predict sample_model rows
       else Raise (RuntimeError 2) |}.

Definition sample_msg_udp : FlowMessage := <["Protocol" := 17%Z]> sample_msg.

Definition world_of (model : Model) : World :=
  {| Classifier_model := Some model; events := []; context_code := ∅ |}.

Definition sample_env (a : Artifact) : Env :=
  {| artifact := a; environ := ∅; dunder_name := "__main__";
     bind_error := λ _, None |}.

(** Decimal digits only; enough for the sample environments. *)
Definition sample_py_int (s : string) : Result Z :=
  if bool_decide (s = "8080") then Return 8080%Z else Raise (ValueError s).

(** ** Request iterators in general, and the shape of the log *)

(** The messages a request iterator delivers before it ends. *)
Fixpoint iter_messages (it : request_iterator) : list FlowMessage :=
  match it with
  | IterNext msg rest => msg :: iter_messages rest
  | _ => []
  end.

(** How a request iterator ends once its messages are taken. *)
Fixpoint iter_end (it : request_iterator) : stream_end :=
  match it with
  | IterStop => ClosedOk
  | IterRaise e => ClosedError e
  | IterNext _ rest => iter_end rest
  end.

(** A client that sends [msgs] and whose side then breaks with [e]. *)
Definition iter_of_list_raising (msgs : list FlowMessage) (e : exn)
  : request_iterator :=
  foldr IterNext (IterRaise e) msgs.

(** A [predict] call on a single row of ten values. *)
Definition single_row_predict (e : Event) : Prop :=
  ∃ row : list Z, e = EvPredict [row] ∧ length row = 10.

(** The events request handling can log. *)
Definition handler_event (e : Event) : Prop :=
  e = EvPrint "mega printa" ∨ single_row_predict e.

(** [w'] is [w] with events of request handling added, and nothing else
    of the log touched. *)
Definition logs_handler_events (w w' : World) : Prop :=
  ∃ evs : list Event,
    events w' = events w ++ evs ∧ Forall handler_event evs.

(** A caller that calls [next] on a generator [n] times, whatever the
    answers are. *)
Fixpoint next_n (n : nat) (g : generator) (context : ServicerContext)
    (w : World) : list next_result * generator * World :=
  match n with
  | O => ([], g, w)
  | S n' =>
      let '(r, g', w') :=
        FlowMessageClassifierServicer.ClassifyStreaming_next g context w in
      let '(rs, g'', w'') := next_n n' g' context w' in
      (r :: rs, g'', w'')
  end.

(** The answer of [next] with which a call ends. *)
Definition final_result (e : stream_end) : next_result :=
  match e with
  | ClosedOk => StopIteration
  | ClosedError ex => Raised ex
  end.


(** The default start on a machine where no port can be bound. *)
Definition sample_env_busy (e : exn) : Env :=
  {| artifact := Pickled sample_model;
     environ := ∅;
     dunder_name := "__main__";
     bind_error := λ _, Some e |}.

Definition sample_env_port (s : string) : Env :=
  {| artifact := Pickled sample_model;
     environ := {["GRPC_SERVER_PORT" := s]};
     dunder_name := "__main__";
     bind_error := λ _, None |}.

(** ** Basic facts about the world and the monad *)

Lemma log_append_nil (w : World) : log_append [] w = w.
Proof. destruct w; unfold log_append; simpl. by rewrite app_nil_r. Qed.

Lemma log_append_app (e1 e2 : list Event) (w : World) :
  log_append e2 (log_append e1 w) = log_append (e1 ++ e2) w.
Proof. unfold log_append; simpl. by rewrite app_assoc. Qed.

Lemma log_append_model (evs : list Event) (w : World) :
  Classifier_model (log_append evs w) = Classifier_model w.
Proof. reflexivity. Qed.

Lemma log_append_code (evs : list Event) (w : World) :
  context_code (log_append evs w) = context_code w.
Proof. reflexivity. Qed.

Lemma log_append_events (evs : list Event) (w : World) :
  events (log_append evs w) = events w ++ evs.
Proof. reflexivity. Qed.

Ltac run_monad :=
  unfold mbind, M_bind, mret, M_ret, raise, lift, emit, get_model,
    getattr, getitem, call_predict; simpl.

Ltac run_startup :=
  unfold run_process, module_body, class_Classifier, pickle_load_open,
    serve, add_insecure_port, set_model;
  run_monad.

(** The body shared by both handlers: classify, index, compare with 1. *)
Lemma handler_body_outcome (msg : FlowMessage) (w : World) :
  (result ← Classifier.classify msg;
   r0 ← getitem result 0;
   let result := if (r0 =? 1)%Z then true else false in
   mret {| malicious := result |}) w
  = ((outcome (Classifier_model w) msg).1,
     log_append (outcome (Classifier_model w) msg).2 w).
Proof.
  unfold Classifier.classify, outcome, feature_names, extract.
  run_monad.
  destruct (Classifier_model w) as [m|]; simpl;
    [|by rewrite log_append_nil].
  repeat (match goal with
          | |- context [msg !! ?n] =>
              destruct (msg !! n) as [?|]; simpl;
              [|by rewrite log_append_nil]
          end).
  match goal with |- context [predict m ?rows] =>
    destruct (predict m rows) as [[|l ls]|e]; simpl; try reflexivity end.
  by destruct (l =? 1)%Z.
Qed.

Lemma Classify_outcome (msg : FlowMessage) (context : ServicerContext)
    (w : World) :
  FlowMessageClassifierServicer.Classify msg context w
  = ((outcome (Classifier_model w) msg).1,
     log_append (outcome (Classifier_model w) msg).2 w).
Proof. apply handler_body_outcome. Qed.

Lemma loop_outcome (msg : FlowMessage) (rest : request_iterator)
    (context : ServicerContext) (w : World) :
  FlowMessageClassifierServicer.ClassifyStreaming_loop
    (IterNext msg rest) context w
  = match (outcome (Classifier_model w) msg).1 with
    | Return v =>
        (Yield v, GenSuspended rest,
         log_append (outcome (Classifier_model w) msg).2 w)
    | Raise e =>
        (Raised e, GenFinished,
         log_append (outcome (Classifier_model w) msg).2 w)
    end.
Proof.
  unfold FlowMessageClassifierServicer.ClassifyStreaming_loop.
  rewrite handler_body_outcome.
  by destruct (outcome (Classifier_model w) msg).1.
Qed.

(** ** The streaming call, step by step *)

Lemma iterator_length_of_list (msgs : list FlowMessage) :
  iterator_length (iter_of_list msgs) = length msgs.
Proof. induction msgs as [|m msgs IH]; simpl; [done | by rewrite IH]. Qed.

(** Starting the generator is printing and then resuming it. *)
Lemma consume_created (fuel : nat) (it : request_iterator)
    (context : ServicerContext) (w : World) :
  consume (S fuel) (GenCreated it) context w
  = consume (S fuel) (GenSuspended it) context
      (log_append [EvPrint "mega printa"] w).
Proof. reflexivity. Qed.

Lemma consume_suspended (msgs : list FlowMessage) :
  ∀ (fuel : nat) (context : ServicerContext) (w : World),
    length msgs < fuel →
    consume fuel (GenSuspended (iter_of_list msgs)) context w
    = let '(vs, e, w') := spec_map_Classify msgs context w in
      (vs, Some e, w').
Proof.
  induction msgs as [|m msgs IH]; intros fuel context w Hfuel.
  - destruct fuel as [|fuel]; [simpl in Hfuel; lia | reflexivity].
  - destruct fuel as [|fuel]; [simpl in Hfuel; lia |].
    simpl in Hfuel.
    cbn [consume iter_of_list foldr spec_map_Classify
         FlowMessageClassifierServicer.ClassifyStreaming_next].
    fold (iter_of_list msgs).
    rewrite loop_outcome, Classify_outcome.
    destruct (outcome (Classifier_model w) m).1 as [v|e]; [|reflexivity].
    rewrite IH by lia.
    by destruct (spec_map_Classify msgs context _) as [[vs e] w'].
Qed.

Lemma run_stream_spec (msgs : list FlowMessage) (context : ServicerContext)
    (w : World) :
  run_stream (iter_of_list msgs) context w
  = let '(vs, e, w') :=
      spec_map_Classify msgs context (log_append [EvPrint "mega printa"] w) in
    (vs, Some e, w').
Proof.
  unfold run_stream, FlowMessageClassifierServicer.ClassifyStreaming.
  rewrite consume_created, consume_suspended; [done|].
  rewrite iterator_length_of_list. lia.
Qed.

Lemma spec_map_Classify_inv (msgs : list FlowMessage) :
  ∀ (context : ServicerContext) (w : World) vs e w',
    spec_map_Classify msgs context w = (vs, e, w') →
    Classifier_model w' = Classifier_model w
    ∧ context_code w' = context_code w
    ∧ (∀ i v, vs !! i = Some v →
         ∃ m, msgs !! i = Some m
              ∧ (outcome (Classifier_model w) m).1 = Return v)
    ∧ match e with
      | ClosedOk => length vs = length msgs
      | ClosedError ex =>
          ∃ m, msgs !! length vs = Some m
               ∧ (outcome (Classifier_model w) m).1 = Raise ex
      end.
Proof.
  induction msgs as [|m msgs IH]; intros context w vs e w' Hrun.
  - simpl in Hrun. injection Hrun as <- <- <-.
    split; [done|]. split; [done|]. split; [|done].
    intros i v Hv. by destruct i.
  - simpl in Hrun. rewrite Classify_outcome in Hrun.
    destruct (outcome (Classifier_model w) m).1 as [v|ex] eqn:Hm.
    + destruct (spec_map_Classify msgs context _) as [[vs0 e0] w0] eqn:Hrest.
      injection Hrun as <- <- <-.
      apply IH in Hrest as (Hmod & Hcode & Hnth & Hend).
      rewrite log_append_model in Hmod, Hnth, Hend.
      rewrite log_append_code in Hcode.
      split; [done|]. split; [done|]. split.
      * intros [|i] v' Hv'; simpl in Hv'.
        -- exists m. by simplify_eq.
        -- by apply Hnth.
      * destruct e0; simpl; [by rewrite Hend | done].
    + injection Hrun as <- <- <-.
      split; [done|]. split; [done|]. split.
      * intros i v' Hv'. by destruct i.
      * exists m. done.
Qed.

Lemma classify_run (msg : FlowMessage) (w : World) :
  Classifier.classify msg w
  = match Classifier_model w with
    | None => (Raise (NameError "Classifier"), w)
    | Some m =>
        match extract msg feature_names with
        | Raise e => (Raise e, w)
        | Return row => (predict m [row], log_append [EvPredict [row]] w)
        end
    end.
Proof.
  unfold Classifier.classify, feature_names, extract.
  run_monad.
  destruct (Classifier_model w) as [m|]; simpl; [|done].
  repeat (match goal with
          | |- context [msg !! ?n] =>
              destruct (msg !! n) as [?|]; simpl; [|done]
          end).
  match goal with |- context [predict m ?rows] =>
    by destruct (predict m rows) end.
Qed.

Lemma extract_ext (m1 m2 : FlowMessage) (names : list string) :
  (∀ n, n ∈ names → m1 !! n = m2 !! n) →
  extract m1 names = extract m2 names.
Proof.
  induction names as [|n names IH]; intros Hagree; [done|].
  simpl. rewrite (Hagree n) by left.
  rewrite IH; [done|]. intros n' Hn'. apply Hagree. by right.
Qed.

Lemma outcome_ext (model : option Model) (m1 m2 : FlowMessage) :
  (∀ n, n ∈ feature_names → m1 !! n = m2 !! n) →
  outcome model m1 = outcome model m2.
Proof. intros Hagree. unfold outcome. by rewrite (extract_ext m1 m2). Qed.

(** ** The feature vector *)

(** C1: every classification call hands [predict] one row made of the ten
    attributes of the record in the order L4SrcPort, L4DstPort, Protocol,
    L7Proto, InBytes, OutBytes, InPkts, OutPkts, TCPFlags,
    FlowDurationMilliseconds: this is the one [predict] call the unary
    [Classify] logs, the one each record of [ClassifyStreaming] logs (after
    the handler's print for the first record), and what [classify] returns
    is [predict] of that row. *)
Theorem predict_receives_ordered_features
    (msg : FlowMessage) (a0 a1 a2 a3 a4 a5 a6 a7 a8 a9 : Z)
    (context : ServicerContext) (w : World) (model : Model) :
  Classifier_model w = Some model →
  msg !! "L4SrcPort" = Some a0 →
  msg !! "L4DstPort" = Some a1 →
  msg !! "Protocol" = Some a2 →
  msg !! "L7Proto" = Some a3 →
  msg !! "InBytes" = Some a4 →
  msg !! "OutBytes" = Some a5 →
  msg !! "InPkts" = Some a6 →
  msg !! "OutPkts" = Some a7 →
  msg !! "TCPFlags" = Some a8 →
  msg !! "FlowDurationMilliseconds" = Some a9 →
  let row := [a0; a1; a2; a3; a4; a5; a6; a7; a8; a9] in
  Classifier.classify msg w
  = (predict model [row], log_append [EvPredict [row]] w)
  ∧ events (FlowMessageClassifierServicer.Classify msg context w).2
    = events w ++ [EvPredict [row]]
  ∧ (∀ rest,
       events (FlowMessageClassifierServicer.ClassifyStreaming_next
                 (GenSuspended (IterNext msg rest)) context w).2
       = events w ++ [EvPredict [row]])
  ∧ (∀ rest,
       events (FlowMessageClassifierServicer.ClassifyStreaming_next
                 (GenCreated (IterNext msg rest)) context w).2
       = events w ++ [EvPrint "mega printa"; EvPredict [row]]).
Proof.
  intros Hmodel H0 H1 H2 H3 H4 H5 H6 H7 H8 H9 row.
  assert (Hrow : extract msg feature_names = Return row).
  { unfold feature_names, extract.
    by rewrite H0, H1, H2, H3, H4, H5, H6, H7, H8, H9. }
  assert (Hout : ∀ w0, Classifier_model w0 = Some model →
                       (outcome (Classifier_model w0) msg).2 = [EvPredict [row]]).
  { intros w0 ->. unfold outcome. by rewrite Hrow. }
  split; [|split; [|split]].
  - by rewrite classify_run, Hmodel, Hrow.
  - rewrite Classify_outcome. simpl. by rewrite Hout.
  - intros rest.
    unfold FlowMessageClassifierServicer.ClassifyStreaming_next.
    rewrite loop_outcome.
    destruct (outcome (Classifier_model w) msg).1; simpl; by rewrite Hout.
  - intros rest.
    unfold FlowMessageClassifierServicer.ClassifyStreaming_next.
    rewrite loop_outcome, log_append_model.
    destruct (outcome (Classifier_model w) msg).1; simpl;
      rewrite Hout by done; by rewrite <- app_assoc.
Qed.

Lemma predict_receives_ordered_features_witness :
  Classifier.classify sample_msg (world_of sample_model)
  = (Return [1%Z],
     log_append [EvPredict [[443; 51000; 6; 91; 1000; 500; 10; 8; 24; 1200]%Z]]
       (world_of sample_model)).
Proof.
  exact (proj1 (predict_receives_ordered_features sample_msg
                  443 51000 6 91 1000 500 10 8 24 1200 0%nat
                  (world_of sample_model) sample_model
                  eq_refl eq_refl eq_refl eq_refl eq_refl eq_refl eq_refl
                  eq_refl eq_refl eq_refl eq_refl)).
Defined.

(** ** The label mapping *)

(** The record standing after [pre] in a streaming call whose earlier
    records classify: its verdict is emitted at its position, or the call
    ends there with its exception. *)
Lemma spec_map_Classify_at (pre : list FlowMessage) :
  ∀ (msg : FlowMessage) (post : list FlowMessage)
    (context : ServicerContext) (w : World) vs e w',
    (∀ m, m ∈ pre → ∃ v, (outcome (Classifier_model w) m).1 = Return v) →
    spec_map_Classify (pre ++ msg :: post) context w = (vs, e, w') →
    match (outcome (Classifier_model w) msg).1 with
    | Return v => vs !! length pre = Some v
    | Raise ex => e = ClosedError ex ∧ length vs = length pre
    end.
Proof.
  induction pre as [|m pre IH]; intros msg post context w vs e w' Hok Hrun.
  - cbn [app spec_map_Classify] in Hrun. rewrite Classify_outcome in Hrun.
    destruct (outcome (Classifier_model w) msg).1 as [v|ex].
    + destruct (spec_map_Classify post context _) as [[vs0 e0] w0].
      by injection Hrun as <- <- <-.
    + by injection Hrun as <- <- <-.
  - cbn [app spec_map_Classify] in Hrun. rewrite Classify_outcome in Hrun.
    destruct (Hok m) as [v0 Hv0]; [by left|]. rewrite Hv0 in Hrun.
    destruct (spec_map_Classify (pre ++ msg :: post) context _)
      as [[vs0 e0] w0] eqn:Hrest.
    injection Hrun as <- <- <-.
    apply IH in Hrest.
    + rewrite log_append_model in Hrest.
      destruct (outcome (Classifier_model w) msg).1 as [v|ex]; [done|].
      destruct Hrest as [-> Hlen]. split; [done|]. cbn [length]. by rewrite Hlen.
    + intros m' Hm'. rewrite log_append_model. apply Hok. by right.
Qed.

(** C2: when the model's answer for a record starts with label [l], the
    verdict of the unary [Classify] has [malicious = true] if [l] is 1 and
    [malicious = false] for every other [l], and [ClassifyStreaming]
    gives the same verdict for that record: it is what the generator the
    handler returns yields first when the record comes first, what a
    suspended generator yields for it, and what a streaming call emits at
    the record's position whenever the records before it classify. *)
Theorem label_one_is_malicious
    (msg : FlowMessage) (context : ServicerContext) (w w' : World)
    (l : Z) (ls : list Z) :
  Classifier.classify msg w = (Return (l :: ls), w') →
  ∃ v : FlowMessageClass,
    (l = 1%Z → malicious v = true)
    ∧ (l ≠ 1%Z → malicious v = false)
    ∧ FlowMessageClassifierServicer.Classify msg context w = (Return v, w')
    ∧ (∀ rest,
         (FlowMessageClassifierServicer.ClassifyStreaming_next
            (FlowMessageClassifierServicer.ClassifyStreaming
               (IterNext msg rest) context) context w).1
         = (Yield v, GenSuspended rest))
    ∧ (∀ rest,
         FlowMessageClassifierServicer.ClassifyStreaming_next
           (GenSuspended (IterNext msg rest)) context w
         = (Yield v, GenSuspended rest, w'))
    ∧ (∀ pre post : list FlowMessage,
         (∀ m, m ∈ pre →
               ∃ v0, (FlowMessageClassifierServicer.Classify m context w).1
                     = Return v0) →
         (run_stream (iter_of_list (pre ++ msg :: post)) context w).1.1
           !! length pre
         = Some v).
Proof.
  intros Hcls.
  exists {| malicious := (l =? 1)%Z |}.
  split; [by intros ->|].
  split; [intros Hne; simpl; by apply Z.eqb_neq|].
  rewrite classify_run in Hcls.
  destruct (Classifier_model w) as [m|] eqn:Hm; [|done].
  destruct (extract msg feature_names) as [row|] eqn:Hrow; [|done].
  injection Hcls as Hpred <-.
  assert (Hout : outcome (Some m) msg
                 = (Return {| malicious := (l =? 1)%Z |}, [EvPredict [row]])).
  { unfold outcome. by rewrite Hrow, Hpred. }
  split; [|split; [|split]].
  - by rewrite Classify_outcome, Hm, Hout.
  - intros rest.
    unfold FlowMessageClassifierServicer.ClassifyStreaming,
      FlowMessageClassifierServicer.ClassifyStreaming_next.
    by rewrite loop_outcome, log_append_model, Hm, Hout.
  - intros rest.
    unfold FlowMessageClassifierServicer.ClassifyStreaming_next.
    by rewrite loop_outcome, Hm, Hout.
  - intros pre post Hok. rewrite run_stream_spec.
    destruct (spec_map_Classify (pre ++ msg :: post) context _)
      as [[vs e] w0] eqn:Hrun.
    apply spec_map_Classify_at in Hrun.
    + rewrite log_append_model, Hm, Hout in Hrun. exact Hrun.
    + intros m0 Hm0. rewrite log_append_model.
      destruct (Hok m0 Hm0) as [v0 Hv0].
      rewrite Classify_outcome in Hv0. eauto.
Qed.

Lemma label_one_is_malicious_witness :
  ∃ v : FlowMessageClass,
    malicious v = true
    ∧ FlowMessageClassifierServicer.Classify sample_msg 0
        (world_of sample_model)
      = (Return v,
         log_append
           [EvPredict [[443; 51000; 6; 91; 1000; 500; 10; 8; 24; 1200]%Z]]
           (world_of sample_model))
    ∧ (FlowMessageClassifierServicer.ClassifyStreaming_next
         (FlowMessageClassifierServicer.ClassifyStreaming
            (IterNext sample_msg IterStop) 0) 0 (world_of sample_model)).1
      = (Yield v, GenSuspended IterStop)
    ∧ (run_stream (iter_of_list ([sample_msg_80] ++ sample_msg :: [])) 0
         (world_of sample_model)).1.1 !! 1%nat
      = Some v.
Proof.
  destruct (label_one_is_malicious sample_msg 0%nat (world_of sample_model)
              (log_append
                 [EvPredict
                    [[443; 51000; 6; 91; 1000; 500; 10; 8; 24; 1200]%Z]]
                 (world_of sample_model)) 1%Z [])
    as (v & Htrue & _ & Hunary & Hfirst & _ & Hstream).
  { vm_compute. reflexivity. }
  exists v.
  split; [by apply Htrue|]. split; [exact Hunary|].
  split; [apply Hfirst|].
  apply (Hstream [sample_msg_80] []).
  intros m Hm. apply elem_of_cons in Hm as [-> | Hm].
  - eexists. vm_compute. reflexivity.
  - by apply elem_of_nil in Hm.
Defined.

(** ** Streaming: order, count, fail-fast *)

Lemma Classify_result (msg : FlowMessage) (context : ServicerContext)
    (w : World) :
  (FlowMessageClassifierServicer.Classify msg context w).1
  = (outcome (Classifier_model w) msg).1.
Proof. by rewrite Classify_outcome. Qed.

(** C3: when a client sends [msgs] and closes its side, and the streaming
    call ends without error, the call has emitted as many verdicts as
    there were records, and the verdict at each position is the
    classification of the record at that position. *)
Theorem stream_complete_and_ordered
    (msgs : list FlowMessage) (context : ServicerContext) (w w' : World)
    (vs : list FlowMessageClass) :
  run_stream (iter_of_list msgs) context w = (vs, Some ClosedOk, w') →
  length vs = length msgs
  ∧ ∀ (i : nat) (m : FlowMessage),
      msgs !! i = Some m →
      ∃ v, vs !! i = Some v
           ∧ (FlowMessageClassifierServicer.Classify m context w).1 = Return v.
Proof.
  rewrite run_stream_spec.
  destruct (spec_map_Classify msgs context _) as [[vs0 e0] w0] eqn:Hrun.
  intros [= -> -> ->].
  apply spec_map_Classify_inv in Hrun as (_ & _ & Hnth & Hlen).
  rewrite log_append_model in Hnth.
  split; [done|].
  intros i m Hi.
  destruct (vs !! i) as [v|] eqn:Hv.
  - exists v. split; [done|].
    destruct (Hnth i v Hv) as (m' & Hi' & Hout).
    rewrite Classify_result. congruence.
  - apply lookup_ge_None in Hv. apply lookup_lt_Some in Hi. lia.
Qed.

Lemma stream_complete_and_ordered_witness :
  length [{| malicious := true |}; {| malicious := false |}]
  = length [sample_msg; sample_msg_80]
  ∧ ∀ (i : nat) (m : FlowMessage),
      [sample_msg; sample_msg_80] !! i = Some m →
      ∃ v, [{| malicious := true |}; {| malicious := false |}] !! i = Some v
           ∧ (FlowMessageClassifierServicer.Classify m 0
                (world_of sample_model)).1 = Return v.
Proof.
  apply (stream_complete_and_ordered [sample_msg; sample_msg_80] 0%nat
           (world_of sample_model)
           (run_stream (iter_of_list [sample_msg; sample_msg_80]) 0%nat
              (world_of sample_model)).2).
  vm_compute. reflexivity.
Defined.

(** C4: when the first record whose classification fails (a missing
    attribute or a failing [predict]) is the [k]-th, the streaming call
    emits exactly [k - 1] verdicts, those of the records before it, and
    then ends with that error: nothing is emitted for position [k] or
    later. *)
Theorem stream_fails_fast
    (msgs : list FlowMessage) (k : nat) (bad : FlowMessage) (ex : exn)
    (context : ServicerContext) (w : World) :
  1 ≤ k →
  msgs !! (k - 1) = Some bad →
  (FlowMessageClassifierServicer.Classify bad context w).1 = Raise ex →
  (∀ (j : nat) (m : FlowMessage),
     j < k - 1 → msgs !! j = Some m →
     ∃ v, (FlowMessageClassifierServicer.Classify m context w).1 = Return v) →
  ∃ (vs : list FlowMessageClass) (w' : World),
    run_stream (iter_of_list msgs) context w
    = (vs, Some (ClosedError ex), w')
    ∧ length vs = k - 1
    ∧ ∀ (j : nat) (m : FlowMessage),
        j < k - 1 → msgs !! j = Some m →
        ∃ v, vs !! j = Some v
             ∧ (FlowMessageClassifierServicer.Classify m context w).1
               = Return v.
Proof.
  intros Hk Hbad Hfail Hgood.
  rewrite run_stream_spec.
  destruct (spec_map_Classify msgs context _) as [[vs e] w'] eqn:Hrun.
  apply spec_map_Classify_inv in Hrun as (_ & _ & Hnth & Hend).
  rewrite log_append_model in Hnth, Hend.
  rewrite Classify_result in Hfail.
  assert (Hlen : length vs = k - 1 ∧ e = ClosedError ex).
  { destruct e as [|ex'].
    - destruct (vs !! (k - 1)) as [v|] eqn:Hv.
      + destruct (Hnth _ _ Hv) as (m & Hm & Hout). congruence.
      + apply lookup_ge_None in Hv. apply lookup_lt_Some in Hbad. lia.
    - destruct Hend as (m & Hm & Hout).
      destruct (decide (length vs < k - 1)) as [Hlt|Hge].
      + destruct (Hgood _ _ Hlt Hm) as (v & Hv).
        rewrite Classify_result in Hv. congruence.
      + destruct (decide (length vs = k - 1)) as [Heq|Hne].
        * split; [done|]. rewrite Heq in Hm. congruence.
        * destruct (lookup_lt_is_Some_2 vs (k - 1)) as [v Hv]; [lia|].
          destruct (Hnth _ _ Hv) as (m' & Hm' & Hout'). congruence. }
  destruct Hlen as [Hlen ->].
  exists vs, w'. split; [done|]. split; [done|].
  intros j m Hj Hm.
  destruct (lookup_lt_is_Some_2 vs j) as [v Hv]; [lia|].
  exists v. split; [done|].
  destruct (Hnth _ _ Hv) as (m' & Hm' & Hout').
  rewrite Classify_result. congruence.
Qed.

Lemma stream_fails_fast_witness :
  ∃ (vs : list FlowMessageClass) (w' : World),
    run_stream
      (iter_of_list [sample_msg; sample_msg_80; sample_msg_missing; sample_msg])
      0 (world_of sample_model)
    = (vs, Some (ClosedError (AttributeError "InBytes")), w')
    ∧ length vs = 3 - 1
    ∧ ∀ (j : nat) (m : FlowMessage),
        j < 3 - 1 →
        [sample_msg; sample_msg_80; sample_msg_missing; sample_msg] !! j
        = Some m →
        ∃ v, vs !! j = Some v
             ∧ (FlowMessageClassifierServicer.Classify m 0
                  (world_of sample_model)).1 = Return v.
Proof.
  apply (stream_fails_fast
           [sample_msg; sample_msg_80; sample_msg_missing; sample_msg]
           3 sample_msg_missing (AttributeError "InBytes") 0%nat
           (world_of sample_model)).
  - lia.
  - reflexivity.
  - vm_compute. reflexivity.
  - intros j m Hj Hm.
    destruct j as [|[|j]]; simpl in Hm.
    + injection Hm as <-. eexists. vm_compute. reflexivity.
    + injection Hm as <-. eexists. vm_compute. reflexivity.
    + lia.
Defined.

(** ** Streaming against the unary call *)

(** C8: a streaming call over [msgs] is the unary [Classify] applied to the
    records in turn up to the first failure (after the handler's print),
    and every verdict it emits is the verdict a unary [Classify] of the
    record at the same position returns on its own, in any world that holds
    the same model and on any context: neither earlier records nor the
    position matter. *)
Theorem streaming_is_map_of_unary
    (msgs : list FlowMessage) (context : ServicerContext) (w : World) :
  run_stream (iter_of_list msgs) context w
  = (let '(vs, e, w') :=
       spec_map_Classify msgs context (log_append [EvPrint "mega printa"] w) in
     (vs, Some e, w'))
  ∧ ∀ (i : nat) (v : FlowMessageClass),
      (run_stream (iter_of_list msgs) context w).1.1 !! i = Some v →
      ∃ m, msgs !! i = Some m
           ∧ ∀ (context0 : ServicerContext) (w0 : World),
               Classifier_model w0 = Classifier_model w →
               (FlowMessageClassifierServicer.Classify m context0 w0).1
               = Return v.
Proof.
  split; [apply run_stream_spec|].
  intros i v. rewrite run_stream_spec.
  destruct (spec_map_Classify msgs context _) as [[vs e] w'] eqn:Hrun.
  simpl. intros Hv.
  apply spec_map_Classify_inv in Hrun as (_ & _ & Hnth & _).
  rewrite log_append_model in Hnth.
  destruct (Hnth _ _ Hv) as (m & Hm & Hout).
  exists m. split; [done|].
  intros context0 w0 Hw0. by rewrite Classify_result, Hw0.
Qed.

Lemma streaming_is_map_of_unary_witness :
  ∃ m, [sample_msg; sample_msg_80; sample_msg_missing] !! 1%nat = Some m
       ∧ ∀ (context0 : ServicerContext) (w0 : World),
           Classifier_model w0 = Classifier_model (world_of sample_model) →
           (FlowMessageClassifierServicer.Classify m context0 w0).1
           = Return {| malicious := false |}.
Proof.
  apply (proj2 (streaming_is_map_of_unary
                  [sample_msg; sample_msg_80; sample_msg_missing] 0%nat
                  (world_of sample_model)) 1%nat {| malicious := false |}).
  vm_compute. reflexivity.
Defined.

(** ** Determinism and dependence on the features only *)

(** C7: with the same model in place, two executions of [Classify] on the
    same record give the same result, whatever else the two worlds and
    contexts are; in particular a second call made right after a first one
    returns what the first returned. *)
Theorem Classify_deterministic
    (msg : FlowMessage) (context1 context2 : ServicerContext)
    (w1 w2 : World) :
  Classifier_model w1 = Classifier_model w2 →
  (FlowMessageClassifierServicer.Classify msg context1 w1).1
  = (FlowMessageClassifierServicer.Classify msg context2 w2).1
  ∧ (FlowMessageClassifierServicer.Classify msg context2
       (FlowMessageClassifierServicer.Classify msg context1 w1).2).1
    = (FlowMessageClassifierServicer.Classify msg context1 w1).1.
Proof.
  intros Hmodel. split.
  - by rewrite !Classify_result, Hmodel.
  - rewrite !Classify_result. by rewrite Classify_outcome.
Qed.

Lemma Classify_deterministic_witness :
  (FlowMessageClassifierServicer.Classify sample_msg 1
     (world_of sample_model)).1
  = (FlowMessageClassifierServicer.Classify sample_msg 2
       (log_append [EvPrint "mega printa"] (world_of sample_model))).1
  ∧ (FlowMessageClassifierServicer.Classify sample_msg 2
       (FlowMessageClassifierServicer.Classify sample_msg 1
          (world_of sample_model)).2).1
    = (FlowMessageClassifierServicer.Classify sample_msg 1
         (world_of sample_model)).1.
Proof.
  apply (Classify_deterministic sample_msg 1%nat 2%nat
           (world_of sample_model)
           (log_append [EvPrint "mega printa"] (world_of sample_model))).
  reflexivity.
Defined.

(** C10: with the same model in place, two messages that agree on
    L4SrcPort, L4DstPort, Protocol, L7Proto, InBytes, OutBytes, InPkts,
    OutPkts, TCPFlags and FlowDurationMilliseconds get the same result from
    [Classify], whatever their other content, the call contexts and the
    rest of the two worlds. *)
Theorem Classify_depends_on_features_only
    (msg1 msg2 : FlowMessage) (context1 context2 : ServicerContext)
    (w1 w2 : World) :
  Classifier_model w1 = Classifier_model w2 →
  msg1 !! "L4SrcPort" = msg2 !! "L4SrcPort" →
  msg1 !! "L4DstPort" = msg2 !! "L4DstPort" →
  msg1 !! "Protocol" = msg2 !! "Protocol" →
  msg1 !! "L7Proto" = msg2 !! "L7Proto" →
  msg1 !! "InBytes" = msg2 !! "InBytes" →
  msg1 !! "OutBytes" = msg2 !! "OutBytes" →
  msg1 !! "InPkts" = msg2 !! "InPkts" →
  msg1 !! "OutPkts" = msg2 !! "OutPkts" →
  msg1 !! "TCPFlags" = msg2 !! "TCPFlags" →
  msg1 !! "FlowDurationMilliseconds" = msg2 !! "FlowDurationMilliseconds" →
  (FlowMessageClassifierServicer.Classify msg1 context1 w1).1
  = (FlowMessageClassifierServicer.Classify msg2 context2 w2).1.
Proof.
  intros Hmodel H0 H1 H2 H3 H4 H5 H6 H7 H8 H9.
  rewrite !Classify_result, Hmodel.
  f_equal. apply outcome_ext.
  intros n Hn. unfold feature_names in Hn.
  repeat (apply elem_of_cons in Hn as [-> | Hn]; [done|]).
  by apply elem_of_nil in Hn.
Qed.

Lemma Classify_depends_on_features_only_witness :
  (FlowMessageClassifierServicer.Classify sample_msg 1
     (world_of sample_model)).1
  = (FlowMessageClassifierServicer.Classify sample_msg_extra 2
       (log_append [EvPrint "mega printa"] (world_of sample_model))).1.
Proof.
  apply (Classify_depends_on_features_only sample_msg sample_msg_extra
           1%nat 2%nat (world_of sample_model)
           (log_append [EvPrint "mega printa"] (world_of sample_model)));
    vm_compute; reflexivity.
Defined.

(** ** What request handling leaves alone *)

Lemma same_store_refl (w : World) : same_store w w.
Proof. by repeat split. Qed.

Lemma same_store_trans (w1 w2 w3 : World) :
  same_store w1 w2 → same_store w2 w3 → same_store w1 w3.
Proof.
  intros (Hm1 & Hc1 & He1) (Hm2 & Hc2 & He2).
  repeat split; congruence.
Qed.

Lemma same_store_log_append (evs : list Event) (w : World) :
  filter is_load evs = [] → same_store w (log_append evs w).
Proof.
  intros Hevs. repeat split.
  rewrite log_append_events, filter_app, Hevs. by rewrite app_nil_r.
Qed.

Lemma outcome_no_load (model : option Model) (msg : FlowMessage) :
  filter is_load (outcome model msg).2 = [].
Proof.
  unfold outcome. destruct model as [m|]; [|done].
  by destruct (extract msg feature_names).
Qed.

Lemma same_store_Classify (msg : FlowMessage) (context : ServicerContext)
    (w : World) :
  same_store w (FlowMessageClassifierServicer.Classify msg context w).2.
Proof.
  rewrite Classify_outcome. simpl.
  apply same_store_log_append, outcome_no_load.
Qed.

Lemma same_store_classify (msg : FlowMessage) (w : World) :
  same_store w (Classifier.classify msg w).2.
Proof.
  rewrite classify_run.
  destruct (Classifier_model w) as [m|]; [|apply same_store_refl].
  destruct (extract msg feature_names) as [row|e]; [|apply same_store_refl].
  by apply same_store_log_append.
Qed.

Lemma same_store_loop (it : request_iterator) (context : ServicerContext)
    (w : World) :
  same_store w
    (FlowMessageClassifierServicer.ClassifyStreaming_loop it context w).2.
Proof.
  destruct it as [| e | msg rest]; [apply same_store_refl ..|].
  rewrite loop_outcome.
  destruct (outcome (Classifier_model w) msg).1; simpl;
    apply same_store_log_append, outcome_no_load.
Qed.

Lemma same_store_next (g : generator) (context : ServicerContext)
    (w : World) :
  same_store w
    (FlowMessageClassifierServicer.ClassifyStreaming_next g context w).2.
Proof.
  destruct g as [it|it|]; simpl.
  - eapply same_store_trans; [|apply same_store_loop].
    by apply same_store_log_append.
  - apply same_store_loop.
  - apply same_store_refl.
Qed.

Lemma same_store_consume (fuel : nat) :
  ∀ (g : generator) (context : ServicerContext) (w : World),
    same_store w (consume fuel g context w).2.
Proof.
  induction fuel as [|fuel IH]; intros g context w; [apply same_store_refl|].
  simpl.
  pose proof (same_store_next g context w) as Hnext.
  destruct (FlowMessageClassifierServicer.ClassifyStreaming_next g context w)
    as [[[v| |e] g'] w']; simpl in Hnext; [|done|done].
  specialize (IH g' context w').
  destruct (consume fuel g' context w') as [[vs e] w'']; simpl in *.
  by eapply same_store_trans.
Qed.

Lemma same_store_operation (op : operation) (w : World) :
  same_store w (run_operation op w).
Proof.
  destruct op; simpl.
  - apply same_store_Classify.
  - apply same_store_classify.
  - apply same_store_next.
  - apply same_store_consume.
Qed.

Lemma same_store_operations (ops : list operation) :
  ∀ w : World, same_store w (run_operations ops w).
Proof.
  induction ops as [|op ops IH]; intros w; [apply same_store_refl|].
  simpl. eapply same_store_trans; [apply same_store_operation | apply IH].
Qed.

(** ** Start of the process *)

Lemma run_process_loaded (py_int : string → Result Z) (env : Env)
    (m : Model) :
  artifact env = Pickled m →
  Classifier_model (run_process py_int env).2 = Some m.
Proof.
  intros Hart. run_startup. rewrite Hart. simpl.
  destruct (decide (dunder_name env = "__main__")); simpl; [|done].
  destruct (environ env !! "GRPC_SERVER_PORT") as [s|]; simpl.
  - destruct (py_int s) as [p|ex]; simpl; [|done].
    by destruct (bind_error env p).
  - by destruct (bind_error env 50051).
Qed.

Lemma run_process_opens_once (py_int : string → Result Z) (env : Env) :
  length (filter is_open (events (run_process py_int env).2)) = 1.
Proof.
  run_startup.
  destruct (artifact env) as [| | |m]; simpl; [done ..|].
  destruct (decide (dunder_name env = "__main__")); simpl; [|done].
  destruct (environ env !! "GRPC_SERVER_PORT") as [s|]; simpl.
  - destruct (py_int s) as [p|ex]; simpl; [|done].
    by destruct (bind_error env p).
  - by destruct (bind_error env 50051).
Qed.

(** C6: when the model file is missing, unreadable or cannot be unpickled,
    the process ends with a non-zero exit status having made none of the
    grpc server calls (no server, no port, no start) and with no model
    stored.  Whatever the state of the file, running the module opens it
    exactly once, and no request-time operation opens or unpickles
    anything. *)
Theorem startup_failure_serves_nothing
    (py_int : string → Result Z) (env : Env) :
  (∀ m, artifact env ≠ Pickled m) →
  (run_process py_int env).1 ≠ 0%Z
  ∧ filter is_listen (events (run_process py_int env).2) = []
  ∧ Classifier_model (run_process py_int env).2 = None
  ∧ (∀ env' : Env,
       length (filter is_open (events (run_process py_int env').2)) = 1)
  ∧ (∀ (ops : list operation) (w : World),
       filter is_load (events (run_operations ops w))
       = filter is_load (events w)).
Proof.
  intros Hbad.
  split; [|split; [|split; [|split]]].
  - run_startup. destruct (artifact env) as [| | |m]; simpl; [done ..|].
    by destruct (Hbad m).
  - run_startup. destruct (artifact env) as [| | |m]; simpl; [done ..|].
    by destruct (Hbad m).
  - run_startup. destruct (artifact env) as [| | |m]; simpl; [done ..|].
    by destruct (Hbad m).
  - apply run_process_opens_once.
  - intros ops w. apply (same_store_operations ops w).
Qed.

Lemma startup_failure_serves_nothing_witness :
  (run_process sample_py_int (sample_env Corrupt)).1 ≠ 0%Z
  ∧ filter is_listen
      (events (run_process sample_py_int (sample_env Corrupt)).2) = []
  ∧ Classifier_model (run_process sample_py_int (sample_env Corrupt)).2 = None
  ∧ (∀ env' : Env,
       length (filter is_open (events (run_process sample_py_int env').2)) = 1)
  ∧ (∀ (ops : list operation) (w : World),
       filter is_load (events (run_operations ops w))
       = filter is_load (events w)).
Proof.
  apply (startup_failure_serves_nothing sample_py_int (sample_env Corrupt)).
  intros m. simpl. discriminate.
Defined.

Example startup_missing :
  run_process sample_py_int (sample_env Missing)
  = (1%Z, log_append [EvOpen "flow-or-malicious.model" "rb"] initial_world).
Proof. reflexivity. Qed.

Example startup_unreadable :
  run_process sample_py_int (sample_env Unreadable)
  = (1%Z, log_append [EvOpen "flow-or-malicious.model" "rb"] initial_world).
Proof. reflexivity. Qed.

Example startup_loaded :
  events (run_process sample_py_int (sample_env (Pickled sample_model))).2
  = [EvOpen "flow-or-malicious.model" "rb"; EvPickleLoad; EvGrpcServer 10;
     EvAddServicer; EvAddInsecurePort 50051; EvServerStart;
     EvPrint "started listening on: [::]:50051"; EvWaitForTermination].
Proof. vm_compute. reflexivity. Qed.

(** ** The stored model *)

(** C9: no sequence of request-time operations ([Classify], [classify],
    steps of a [ClassifyStreaming] generator, whole streaming calls)
    changes the stored model; so after a start that loaded model [m], the
    stored model is [m] after any such sequence, and a classification made
    then answers as one made on [m] directly. *)
Theorem model_is_invariant (ops : list operation) (w : World) :
  Classifier_model (run_operations ops w) = Classifier_model w
  ∧ ∀ (py_int : string → Result Z) (env : Env) (m : Model),
      artifact env = Pickled m →
      Classifier_model (run_operations ops (run_process py_int env).2) = Some m
      ∧ ∀ (msg : FlowMessage) (context : ServicerContext),
          (FlowMessageClassifierServicer.Classify msg context
             (run_operations ops (run_process py_int env).2)).1
          = (FlowMessageClassifierServicer.Classify msg context
               (world_of m)).1.
Proof.
  split; [apply (same_store_operations ops w)|].
  intros py_int env m Hart.
  assert (Hm : Classifier_model
                 (run_operations ops (run_process py_int env).2) = Some m).
  { destruct (same_store_operations ops (run_process py_int env).2) as [-> _].
    by apply run_process_loaded. }
  split; [done|].
  intros msg context. by rewrite !Classify_result, Hm.
Qed.

Lemma model_is_invariant_witness :
  Classifier_model
    (run_operations
       [OpClassify sample_msg 0; OpStream (iter_of_list [sample_msg_missing]) 1]
       (run_process sample_py_int (sample_env (Pickled sample_model))).2)
  = Some sample_model
  ∧ ∀ (msg : FlowMessage) (context : ServicerContext),
      (FlowMessageClassifierServicer.Classify msg context
         (run_operations
            [OpClassify sample_msg 0;
             OpStream (iter_of_list [sample_msg_missing]) 1]
            (run_process sample_py_int
               (sample_env (Pickled sample_model))).2)).1
      = (FlowMessageClassifierServicer.Classify msg context
           (world_of sample_model)).1.
Proof.
  apply (proj2 (model_is_invariant
                  [OpClassify sample_msg 0%nat;
                   OpStream (iter_of_list [sample_msg_missing]) 1%nat]
                  initial_world)
           sample_py_int (sample_env (Pickled sample_model)) sample_model).
  reflexivity.
Defined.

(** ** Failures of a unary call *)

Example failing_model_call_status :
  let r := FlowMessageClassifierServicer.Classify sample_msg_udp 0
             (world_of sample_failing_model) in
  r.1 = Raise (RuntimeError 2)
  ∧ context_code r.2 !! 0%nat = None
  ∧ surfaced_status r.1 0 r.2 = UNKNOWN.
Proof. vm_compute. done. Qed.

(** C5, as stated, fails: for a record with all ten fields on which
    [predict] raises, the handler lets the exception escape and sets no
    code, so the status the caller sees is [UNKNOWN], not [INTERNAL]. *)
Lemma status_by_failure_kind_fails : ¬ status_by_failure_kind.
Proof.
  intros Hclaim.
  specialize (Hclaim sample_msg_udp 0%nat (world_of sample_failing_model)
                sample_failing_model eq_refl eq_refl).
  destruct (FlowMessageClassifierServicer.Classify sample_msg_udp 0
              (world_of sample_failing_model)) as [r w'] eqn:Hrun.
  destruct Hclaim as [_ Hint].
  assert (Hf : model_fails sample_failing_model sample_msg_udp).
  { exists [443; 51000; 17; 91; 1000; 500; 10; 8; 24; 1200]%Z,
      (RuntimeError 2).
    split; vm_compute; reflexivity. }
  specialize (Hint Hf).
  vm_compute in Hrun. injection Hrun as <- <-.
  vm_compute in Hint. discriminate.
Qed.

(** C5, amended: when reading an attribute of the request raises, or
    [predict] raises, the unary [Classify] raises that same exception and
    returns no verdict; it sets no code on any context, so on a context
    without a code the caller sees the status of an escaped exception,
    [UNKNOWN], for both kinds of failure. *)
Theorem Classify_failure_propagates
    (msg : FlowMessage) (context : ServicerContext) (w : World)
    (model : Model) (e : exn) :
  Classifier_model w = Some model →
  extract msg feature_names = Raise e
  ∨ (∃ row, extract msg feature_names = Return row
            ∧ predict model [row] = Raise e) →
  (FlowMessageClassifierServicer.Classify msg context w).1 = Raise e
  ∧ context_code (FlowMessageClassifierServicer.Classify msg context w).2
    = context_code w
  ∧ (context_code w !! context = None →
     surfaced_status
       (FlowMessageClassifierServicer.Classify msg context w).1 context
       (FlowMessageClassifierServicer.Classify msg context w).2
     = UNKNOWN).
Proof.
  intros Hmodel Hfail.
  assert (Hres : (FlowMessageClassifierServicer.Classify msg context w).1
                 = Raise e).
  { rewrite Classify_result, Hmodel. unfold outcome.
    destruct Hfail as [-> | (row & -> & Hpred)]; [done|].
    simpl. by rewrite Hpred. }
  destruct (same_store_Classify msg context w) as (_ & Hcode & _).
  split; [done|]. split; [done|].
  intros Hnone. unfold surfaced_status. by rewrite Hcode, Hnone, Hres.
Qed.

Lemma Classify_failure_propagates_witness :
  (FlowMessageClassifierServicer.Classify sample_msg_udp 0
     (world_of sample_failing_model)).1 = Raise (RuntimeError 2)
  ∧ context_code
      (FlowMessageClassifierServicer.Classify sample_msg_udp 0
         (world_of sample_failing_model)).2
    = context_code (world_of sample_failing_model)
  ∧ (context_code (world_of sample_failing_model) !! 0%nat = None →
     surfaced_status
       (FlowMessageClassifierServicer.Classify sample_msg_udp 0
          (world_of sample_failing_model)).1 0
       (FlowMessageClassifierServicer.Classify sample_msg_udp 0
          (world_of sample_failing_model)).2
     = UNKNOWN).
Proof.
  apply (Classify_failure_propagates sample_msg_udp 0%nat
           (world_of sample_failing_model) sample_failing_model
           (RuntimeError 2)).
  - reflexivity.
  - right. exists [443; 51000; 17; 91; 1000; 500; 10; 8; 24; 1200]%Z.
    split; vm_compute; reflexivity.
Defined.

(** ** Which port is served, and when a server is started at all *)

(** X1: a start that unpickles the model as [__main__] creates the server
    with 10 workers, registers the servicer and calls [add_insecure_port],
    in this order and after the load; the port put into the address is
    50051 when GRPC_SERVER_PORT is unset and the integer value of the
    variable when it is set.  When that call succeeds the server is
    started, the message printed and termination awaited, with exit status
    0 once that returns; when it raises, the process ends with exit status
    1 and the server is never started. *)
Theorem serve_binds_configured_port
    (py_int : string → Result Z) (env : Env) (m : Model) (p : Z) :
  artifact env = Pickled m →
  dunder_name env = "__main__" →
  (environ env !! "GRPC_SERVER_PORT" = None ∧ p = 50051%Z)
  ∨ (∃ s, environ env !! "GRPC_SERVER_PORT" = Some s
          ∧ py_int s = Return p) →
  Classifier_model (run_process py_int env).2 = Some m
  ∧ (bind_error env p = None →
     (run_process py_int env).1 = 0%Z
     ∧ events (run_process py_int env).2
       = [EvOpen "flow-or-malicious.model" "rb"; EvPickleLoad;
          EvGrpcServer 10; EvAddServicer; EvAddInsecurePort p;
          EvServerStart;
          EvPrint ("started listening on: [::]:" +:+ pretty p);
          EvWaitForTermination])
  ∧ (∀ e, bind_error env p = Some e →
          (run_process py_int env).1 = 1%Z
          ∧ events (run_process py_int env).2
            = [EvOpen "flow-or-malicious.model" "rb"; EvPickleLoad;
               EvGrpcServer 10; EvAddServicer; EvAddInsecurePort p]).
Proof.
  intros Hart Hname Hport. run_startup. rewrite Hart. simpl.
  destruct (decide (dunder_name env = "__main__")) as [_|Hne]; [|done].
  simpl.
  destruct Hport as [[-> ->] | (s & -> & Hs)]; simpl.
  - destruct (bind_error env 50051) as [e0|]; simpl.
    + split; [done|]. split; [done|]. by intros e [= <-].
    + split; [done|]. split; [done|]. by intros e [=].
  - rewrite Hs. simpl.
    destruct (bind_error env p) as [e0|]; simpl.
    + split; [done|]. split; [done|]. by intros e [= <-].
    + split; [done|]. split; [done|]. by intros e [=].
Qed.

Lemma serve_binds_configured_port_witness :
  Classifier_model (run_process sample_py_int (sample_env_port "8080")).2
  = Some sample_model
  ∧ (bind_error (sample_env_port "8080") 8080 = None →
     (run_process sample_py_int (sample_env_port "8080")).1 = 0%Z
     ∧ events (run_process sample_py_int (sample_env_port "8080")).2
       = [EvOpen "flow-or-malicious.model" "rb"; EvPickleLoad;
          EvGrpcServer 10; EvAddServicer; EvAddInsecurePort 8080;
          EvServerStart;
          EvPrint ("started listening on: [::]:" +:+ pretty 8080%Z);
          EvWaitForTermination])
  ∧ (∀ e, bind_error (sample_env_port "8080") 8080 = Some e →
          (run_process sample_py_int (sample_env_port "8080")).1 = 1%Z
          ∧ events (run_process sample_py_int (sample_env_port "8080")).2
            = [EvOpen "flow-or-malicious.model" "rb"; EvPickleLoad;
               EvGrpcServer 10; EvAddServicer; EvAddInsecurePort 8080]).
Proof.
  apply (serve_binds_configured_port sample_py_int (sample_env_port "8080")
           sample_model 8080%Z).
  - reflexivity.
  - reflexivity.
  - right. exists "8080". split; reflexivity.
Defined.

Example port_in_use :
  run_process sample_py_int (sample_env_busy (RuntimeError 98))
  = (1%Z,
     {| Classifier_model := Some sample_model;
        events := [EvOpen "flow-or-malicious.model" "rb"; EvPickleLoad;
                   EvGrpcServer 10; EvAddServicer; EvAddInsecurePort 50051];
        context_code := ∅ |}).
Proof. reflexivity. Qed.

(** X2: when GRPC_SERVER_PORT is set to a string [int] rejects, the process
    ends with exit status 1 after the model was loaded and stored, and
    before any grpc call: no server is created and no port is bound. *)
Theorem invalid_port_stops_before_serving
    (py_int : string → Result Z) (env : Env) (m : Model) (s : string)
    (e : exn) :
  artifact env = Pickled m →
  dunder_name env = "__main__" →
  environ env !! "GRPC_SERVER_PORT" = Some s →
  py_int s = Raise e →
  (run_process py_int env).1 = 1%Z
  ∧ events (run_process py_int env).2
    = [EvOpen "flow-or-malicious.model" "rb"; EvPickleLoad]
  ∧ Classifier_model (run_process py_int env).2 = Some m.
Proof.
  intros Hart Hname Henv Hs. run_startup. rewrite Hart. simpl.
  destruct (decide (dunder_name env = "__main__")) as [_|Hne]; [|done].
  simpl. rewrite Henv. simpl. by rewrite Hs.
Qed.

Lemma invalid_port_stops_before_serving_witness :
  (run_process sample_py_int (sample_env_port "http")).1 = 1%Z
  ∧ events (run_process sample_py_int (sample_env_port "http")).2
    = [EvOpen "flow-or-malicious.model" "rb"; EvPickleLoad]
  ∧ Classifier_model (run_process sample_py_int (sample_env_port "http")).2
    = Some sample_model.
Proof.
  apply (invalid_port_stops_before_serving sample_py_int
           (sample_env_port "http") sample_model "http" (ValueError "http"));
    reflexivity.
Defined.

(** X3: running the module makes a grpc call exactly when the model file
    unpickles, the module runs under the name [__main__], and
    GRPC_SERVER_PORT is unset or accepted by [int]; it starts the server
    exactly when, in addition, [add_insecure_port] on the port so chosen
    does not raise. *)
Theorem server_started_iff (py_int : string → Result Z) (env : Env) :
  let chosen (p : Z) :=
    (environ env !! "GRPC_SERVER_PORT" = None ∧ p = 50051%Z)
    ∨ (∃ s, environ env !! "GRPC_SERVER_PORT" = Some s
            ∧ py_int s = Return p) in
  let main_loaded :=
    (∃ m, artifact env = Pickled m) ∧ dunder_name env = "__main__" in
  (filter is_listen (events (run_process py_int env).2) ≠ []
   ↔ main_loaded ∧ ∃ p, chosen p)
  ∧ (EvServerStart ∈ events (run_process py_int env).2
     ↔ main_loaded ∧ ∃ p, chosen p ∧ bind_error env p = None).
Proof.
  intros chosen main_loaded.
  assert (Hchosen : ∀ p q, chosen p → chosen q → p = q).
  { intros p q [[Hp ->] | (s & Hs & Hp)] [[Hq ->] | (s' & Hs' & Hq)];
      congruence. }
  assert (Hcases :
    (¬ (main_loaded ∧ ∃ p, chosen p)
     ∧ filter is_listen (events (run_process py_int env).2) = [])
    ∨ ∃ p, main_loaded ∧ chosen p
           ∧ filter is_listen (events (run_process py_int env).2) ≠ []
           ∧ (EvServerStart ∈ events (run_process py_int env).2
              ↔ bind_error env p = None)).
  { unfold chosen, main_loaded in *. run_startup.
    destruct (artifact env) as [| | |m] eqn:Hart; simpl;
      [left; split; [by intros (((m & Hm) & _) & _) | done] ..|].
    destruct (decide (dunder_name env = "__main__")) as [Hname|Hname]; simpl;
      [|left; split; [by intros ((_ & Hn) & _) | done]].
    destruct (environ env !! "GRPC_SERVER_PORT") as [s|] eqn:Henv; simpl.
    - destruct (py_int s) as [p|e] eqn:Hs; simpl.
      + right. exists p.
        split; [split; [by exists m | done]|].
        split; [right; by exists s|].
        destruct (bind_error env p) as [e0|]; simpl; (split; [done|]).
        * split; [|done]. intros Hin.
          repeat (apply elem_of_cons in Hin as [Hin | Hin];
                  [discriminate Hin|]).
          by apply elem_of_nil in Hin.
        * split; [done|]. intros _. repeat constructor.
      + left. split; [|done].
        intros (_ & p & [[H _] | (s' & H & Hp)]); congruence.
    - right. exists 50051%Z.
      split; [split; [by exists m | done]|].
      split; [by left|].
      destruct (bind_error env 50051) as [e0|]; simpl; (split; [done|]).
      + split; [|done]. intros Hin.
        repeat (apply elem_of_cons in Hin as [Hin | Hin];
                [discriminate Hin|]).
        by apply elem_of_nil in Hin.
      + split; [done|]. intros _. repeat constructor. }
  destruct Hcases as [[Hnot Hnone] | (p & Hmain & Hp & Hsome & Hstart)].
  - split; split.
    + intros H. by destruct H.
    + intros H. by destruct Hnot.
    + intros Hin.
      assert (Hf : EvServerStart
                   ∈ filter is_listen (events (run_process py_int env).2)).
      { apply list_elem_of_filter. by split. }
      rewrite Hnone in Hf. by apply elem_of_nil in Hf.
    + intros (Hm & q & Hq & _). destruct Hnot. eauto.
  - split; split.
    + intros _. eauto.
    + intros _. done.
    + intros Hin. split; [done|]. exists p. split; [done|]. by apply Hstart.
    + intros (_ & q & Hq & Hbind).
      apply Hstart. by rewrite (Hchosen p q Hp Hq).
Qed.

Lemma server_started_iff_witness :
  EvServerStart ∈ events (run_process sample_py_int (sample_env_port "8080")).2
  ∧ EvServerStart
    ∉ events (run_process sample_py_int (sample_env_busy (RuntimeError 98))).2.
Proof.
  split.
  - apply (proj2 (server_started_iff sample_py_int (sample_env_port "8080"))).
    split; [split; [by exists sample_model | reflexivity]|].
    exists 8080%Z. split; [|reflexivity].
    right. exists "8080". split; reflexivity.
  - intros Hin.
    apply (proj2 (server_started_iff sample_py_int
                    (sample_env_busy (RuntimeError 98)))) in Hin
      as (_ & p & _ & Hbind).
    discriminate Hbind.
Defined.

(** ** Edge cases of one classification *)



Lemma extract_total (msg : FlowMessage) (names : list string) :
  (∀ n, n ∈ names → is_Some (msg !! n)) →
  ∃ row, extract msg names = Return row.
Proof.
  induction names as [|n names IH]; intros Hall; [by exists []|].
  destruct (Hall n) as [v Hv]; [by left|].
  destruct IH as [row Hrow]; [intros n' Hn'; apply Hall; by right|].
  exists (v :: row). cbn [extract]. by rewrite Hv, Hrow.
Qed.

(** X5: a record that carries all ten attributes never fails before the
    model is asked: when [Classify] raises on it, [predict] was called
    once, on the record's row, and the exception is the one [predict]
    raised, or [IndexError] because [predict] answered with an empty
    array. *)
Theorem received_record_fails_only_through_predict
    (msg : FlowMessage) (context : ServicerContext) (w : World)
    (model : Model) (e : exn) :
  Classifier_model w = Some model →
  (∀ n, n ∈ feature_names → is_Some (msg !! n)) →
  (FlowMessageClassifierServicer.Classify msg context w).1 = Raise e →
  ∃ row : list Z,
    extract msg feature_names = Return row
    ∧ events (FlowMessageClassifierServicer.Classify msg context w).2
      = events w ++ [EvPredict [row]]
    ∧ (predict model [row] = Raise e
       ∨ (predict model [row] = Return [] ∧ e = IndexError)).
Proof.
  intros Hmodel Hall Hfail.
  destruct (extract_total msg feature_names Hall) as [row Hrow].
  exists row. split; [done|].
  rewrite Classify_outcome, Hmodel in Hfail |- *.
  unfold outcome in Hfail |- *. rewrite Hrow in Hfail |- *.
  cbn [fst snd] in Hfail |- *.
  split; [done|].
  destruct (predict model [row]) as [[|l ls]|ex]; [|done|].
  - right. split; [done|]. congruence.
  - left. congruence.
Qed.

Lemma received_record_fails_only_through_predict_witness :
  ∃ row : list Z,
    extract sample_msg_udp feature_names = Return row
    ∧ events (FlowMessageClassifierServicer.Classify sample_msg_udp 0
                (world_of sample_failing_model)).2
      = events (world_of sample_failing_model) ++ [EvPredict [row]]
    ∧ (predict sample_failing_model [row] = Raise (RuntimeError 2)
       ∨ (predict sample_failing_model [row] = Return []
          ∧ RuntimeError 2 = IndexError)).
Proof.
  apply (received_record_fails_only_through_predict sample_msg_udp 0%nat
           (world_of sample_failing_model) sample_failing_model
           (RuntimeError 2)).
  - reflexivity.
  - intros n Hn. unfold feature_names in Hn.
    repeat (apply elem_of_cons in Hn as [-> | Hn]; [by eexists|]).
    by apply elem_of_nil in Hn.
  - vm_compute. reflexivity.
Defined.

(** ** Streaming calls over any request iterator *)

Lemma iterator_length_messages (it : request_iterator) :
  length (iter_messages it) = iterator_length it.
Proof. induction it as [| e | msg rest IH]; simpl; [done | done | by rewrite IH]. Qed.

Lemma iter_messages_raising (msgs : list FlowMessage) (e : exn) :
  iter_messages (iter_of_list_raising msgs e) = msgs
  ∧ iter_end (iter_of_list_raising msgs e) = ClosedError e.
Proof.
  induction msgs as [|m msgs [IH1 IH2]]; [done|].
  simpl. fold (iter_of_list_raising msgs e). by rewrite IH1, IH2.
Qed.

Lemma consume_suspended_any (it : request_iterator) :
  ∀ (fuel : nat) (context : ServicerContext) (w : World),
    iterator_length it < fuel →
    consume fuel (GenSuspended it) context w
    = let '(vs, e, w') := spec_map_Classify (iter_messages it) context w in
      (vs,
       Some match e with
            | ClosedOk => iter_end it
            | ClosedError ex => ClosedError ex
            end,
       w').
Proof.
  induction it as [| e | msg rest IH]; intros fuel context w Hfuel;
    (destruct fuel as [|fuel]; [simpl in Hfuel; lia|]); [done | done |].
  simpl in Hfuel.
  cbn [consume iter_messages spec_map_Classify iter_end
       FlowMessageClassifierServicer.ClassifyStreaming_next].
  rewrite loop_outcome, Classify_outcome.
  destruct (outcome (Classifier_model w) msg).1 as [v|ex]; [|done].
  rewrite IH by lia.
  by destruct (spec_map_Classify (iter_messages rest) context _)
    as [[vs e] w'].
Qed.

Lemma consume_created_any (it : request_iterator) (fuel : nat)
    (context : ServicerContext) (w : World) :
  iterator_length it < fuel →
  consume fuel (GenCreated it) context w
  = let '(vs, e, w') :=
      spec_map_Classify (iter_messages it) context
        (log_append [EvPrint "mega printa"] w) in
    (vs,
     Some match e with
          | ClosedOk => iter_end it
          | ClosedError ex => ClosedError ex
          end,
     w').
Proof.
  intros Hfuel. destruct fuel as [|fuel]; [lia|].
  rewrite consume_created. by apply consume_suspended_any.
Qed.

Lemma spec_map_Classify_length (msgs : list FlowMessage)
    (context : ServicerContext) (w w' : World) vs e :
  spec_map_Classify msgs context w = (vs, e, w') →
  length vs ≤ length msgs.
Proof.
  intros Hrun.
  apply spec_map_Classify_inv in Hrun as (_ & _ & _ & Hend).
  destruct e as [|ex]; [lia|].
  destruct Hend as (m & Hm & _). apply lookup_lt_Some in Hm. lia.
Qed.

Lemma extract_length (msg : FlowMessage) (names : list string) :
  ∀ row, extract msg names = Return row → length row = length names.
Proof.
  induction names as [|n names IH]; intros row Hrow; simpl in Hrow.
  - by injection Hrow as <-.
  - destruct (msg !! n) as [v|]; [|done].
    destruct (extract msg names) as [vs|]; [|done].
    injection Hrow as <-. simpl. by rewrite (IH vs).
Qed.

(** One classification logs nothing when it fails before [predict], and
    one call on the record's row otherwise. *)
Lemma outcome_log (model : option Model) (msg : FlowMessage) :
  ((outcome model msg).2 = [] ∧ ∃ e, (outcome model msg).1 = Raise e)
  ∨ ∃ row, extract msg feature_names = Return row
           ∧ (outcome model msg).2 = [EvPredict [row]].
Proof.
  unfold outcome. destruct model as [m|]; [|left; eauto].
  destruct (extract msg feature_names) as [row|e]; [|left; eauto].
  right. eauto.
Qed.

Lemma outcome_log_shape (model : option Model) (msg : FlowMessage) :
  Forall single_row_predict (outcome model msg).2.
Proof.
  destruct (outcome_log model msg) as [[-> _] | (row & Hrow & ->)]; [done|].
  apply Forall_singleton. exists row. split; [done|].
  by apply extract_length in Hrow.
Qed.

Lemma spec_map_Classify_log (msgs : list FlowMessage) :
  ∀ (context : ServicerContext) (w : World) vs e w',
    spec_map_Classify msgs context w = (vs, e, w') →
    ∃ evs : list Event,
      events w' = events w ++ evs
      ∧ Forall single_row_predict evs
      ∧ length vs ≤ length evs ≤ S (length vs)
      ∧ (e = ClosedOk →
         ∃ rows : list (list Z),
           Forall2 (λ m row, extract m feature_names = Return row) msgs rows
           ∧ evs = (λ row, EvPredict [row]) <$> rows).
Proof.
  induction msgs as [|m msgs IH]; intros context w vs e w' Hrun.
  - simpl in Hrun. injection Hrun as <- <- <-.
    exists []. rewrite app_nil_r. repeat split; [done | simpl; lia ..|].
    intros _. exists []. by split.
  - cbn [spec_map_Classify] in Hrun. rewrite Classify_outcome in Hrun.
    pose proof (outcome_log_shape (Classifier_model w) m) as Hshape.
    pose proof (outcome_log (Classifier_model w) m) as Hlog.
    destruct (outcome (Classifier_model w) m).1 as [v|ex] eqn:Hres.
    + destruct (spec_map_Classify msgs context _) as [[vs0 e0] w0] eqn:Hrest.
      injection Hrun as <- <- <-.
      apply IH in Hrest as (evs & Hev & Hall & Hlen & Hok).
      rewrite log_append_events in Hev.
      destruct Hlog as [[_ [ex Hex]] | (row & Hrow & Hlog)]; [congruence|].
      rewrite Hlog in Hev.
      exists (EvPredict [row] :: evs).
      split; [by rewrite Hev, <- app_assoc|].
      split; [rewrite Hlog in Hshape; by apply (Forall_app _ [_] evs)|].
      split; [cbn [length]; lia|].
      intros ->. destruct (Hok eq_refl) as (rows & Hrows & ->).
      exists (row :: rows). split; [by constructor | done].
    + injection Hrun as <- <- <-.
      exists (outcome (Classifier_model w) m).2.
      split; [done|]. split; [done|].
      split; [|done].
      destruct Hlog as [[-> _] | (row & _ & ->)]; cbn [length]; lia.
Qed.

Lemma spec_map_Classify_all_ok (msgs : list FlowMessage)
    (context : ServicerContext) (w w' : World) vs e :
  (∀ m, m ∈ msgs → ∃ v, (outcome (Classifier_model w) m).1 = Return v) →
  spec_map_Classify msgs context w = (vs, e, w') →
  e = ClosedOk.
Proof.
  intros Hok Hrun.
  apply spec_map_Classify_inv in Hrun as (_ & _ & _ & Hend).
  destruct e as [|ex]; [done|].
  destruct Hend as (m & Hm & Hfail).
  destruct (Hok m) as [v Hv]; [by eapply list_elem_of_lookup_2|].
  congruence.
Qed.

(** X6: when the request iterator raises after delivering [msgs] (the
    client's side broke) and every delivered record classifies, the
    streaming call has emitted the verdict of each of them, in order, and
    ends with the iterator's exception. *)
Theorem broken_request_stream
    (msgs : list FlowMessage) (e : exn) (context : ServicerContext)
    (w : World) :
  (∀ m, m ∈ msgs →
        ∃ v, (FlowMessageClassifierServicer.Classify m context w).1
             = Return v) →
  ∃ (vs : list FlowMessageClass) (w' : World),
    run_stream (iter_of_list_raising msgs e) context w
    = (vs, Some (ClosedError e), w')
    ∧ length vs = length msgs
    ∧ ∀ (i : nat) (m : FlowMessage),
        msgs !! i = Some m →
        ∃ v, vs !! i = Some v
             ∧ (FlowMessageClassifierServicer.Classify m context w).1
               = Return v.
Proof.
  intros Hok.
  unfold run_stream, FlowMessageClassifierServicer.ClassifyStreaming.
  rewrite consume_created_any by lia.
  destruct (iter_messages_raising msgs e) as [-> ->].
  destruct (spec_map_Classify msgs context _) as [[vs e0] w'] eqn:Hrun.
  assert (e0 = ClosedOk) as ->.
  { eapply spec_map_Classify_all_ok; [|exact Hrun].
    intros m Hm. rewrite log_append_model.
    destruct (Hok m Hm) as [v Hv]. rewrite Classify_result in Hv. eauto. }
  apply spec_map_Classify_inv in Hrun as (_ & _ & Hnth & Hlen).
  rewrite log_append_model in Hnth.
  exists vs, w'. split; [done|]. split; [done|].
  intros i m Hi.
  destruct (lookup_lt_is_Some_2 vs i) as [v Hv].
  { apply lookup_lt_Some in Hi. lia. }
  exists v. split; [done|].
  destruct (Hnth _ _ Hv) as (m' & Hm' & Hout).
  rewrite Classify_result. congruence.
Qed.

Lemma broken_request_stream_witness :
  ∃ (vs : list FlowMessageClass) (w' : World),
    run_stream (iter_of_list_raising [sample_msg; sample_msg_80]
                  (RuntimeError 1)) 0 (world_of sample_model)
    = (vs, Some (ClosedError (RuntimeError 1)), w')
    ∧ length vs = length [sample_msg; sample_msg_80]
    ∧ ∀ (i : nat) (m : FlowMessage),
        [sample_msg; sample_msg_80] !! i = Some m →
        ∃ v, vs !! i = Some v
             ∧ (FlowMessageClassifierServicer.Classify m 0
                  (world_of sample_model)).1 = Return v.
Proof.
  apply (broken_request_stream [sample_msg; sample_msg_80] (RuntimeError 1)
           0%nat (world_of sample_model)).
  intros m Hm.
  apply elem_of_cons in Hm as [-> | Hm];
    [eexists; vm_compute; reflexivity|].
  apply elem_of_cons in Hm as [-> | Hm];
    [eexists; vm_compute; reflexivity|].
  by apply elem_of_nil in Hm.
Defined.

Lemma next_n_finished (n : nat) (context : ServicerContext) (w : World) :
  next_n n GenFinished context w = (replicate n StopIteration, GenFinished, w).
Proof.
  induction n as [|n IH]; [done|].
  cbn [next_n FlowMessageClassifierServicer.ClassifyStreaming_next].
  by rewrite IH.
Qed.

Lemma next_n_suspended (it : request_iterator) :
  ∀ (n : nat) (context : ServicerContext) (w : World),
    iterator_length it < n →
    next_n n (GenSuspended it) context w
    = let '(vs, e, w') := spec_map_Classify (iter_messages it) context w in
      ((Yield <$> vs)
         ++ final_result match e with
                         | ClosedOk => iter_end it
                         | ClosedError ex => ClosedError ex
                         end
            :: replicate (n - S (length vs)) StopIteration,
       GenFinished, w').
Proof.
  induction it as [| e | msg rest IH]; intros n context w Hn;
    (destruct n as [|n]; [cbn [iterator_length] in Hn; lia|]).
  - cbn [next_n FlowMessageClassifierServicer.ClassifyStreaming_next
         FlowMessageClassifierServicer.ClassifyStreaming_loop].
    rewrite next_n_finished. cbn. by rewrite Nat.sub_0_r.
  - cbn [next_n FlowMessageClassifierServicer.ClassifyStreaming_next
         FlowMessageClassifierServicer.ClassifyStreaming_loop].
    rewrite next_n_finished. cbn. by rewrite Nat.sub_0_r.
  - cbn [iterator_length] in Hn.
    cbn [next_n iter_messages spec_map_Classify iter_end
         FlowMessageClassifierServicer.ClassifyStreaming_next].
    rewrite loop_outcome, Classify_outcome.
    destruct (outcome (Classifier_model w) msg).1 as [v|ex].
    + rewrite IH by lia.
      by destruct (spec_map_Classify (iter_messages rest) context _)
        as [[vs e] w'].
    + rewrite next_n_finished. cbn. by rewrite Nat.sub_0_r.
Qed.

(** X7: a streaming call over any request iterator ends: within one [next]
    more than the iterator has messages the generator has stopped or
    raised, whatever larger bound the caller uses.  It never emits more
    verdicts than it received records, and when it ends cleanly it has
    emitted one per record and the iterator itself ended cleanly.  A
    caller that goes on calling [next] gets the verdicts, then the end
    ([StopIteration] or the exception), then [StopIteration] for every
    further call, which changes nothing: the generator stays finished
    and the world is the one the call ended in. *)
Theorem stream_always_ends
    (it : request_iterator) (context : ServicerContext) (w : World) :
  ∃ (vs : list FlowMessageClass) (e : stream_end) (w' : World),
    run_stream it context w = (vs, Some e, w')
    ∧ length vs ≤ iterator_length it
    ∧ (e = ClosedOk →
       length vs = iterator_length it ∧ iter_end it = ClosedOk)
    ∧ (∀ fuel : nat,
         iterator_length it < fuel →
         consume fuel
           (FlowMessageClassifierServicer.ClassifyStreaming it context)
           context w
         = (vs, Some e, w'))
    ∧ (∀ n : nat,
         iterator_length it < n →
         next_n n
           (FlowMessageClassifierServicer.ClassifyStreaming it context)
           context w
         = ((Yield <$> vs) ++ final_result e
              :: replicate (n - S (length vs)) StopIteration,
            GenFinished, w')).
Proof.
  unfold run_stream, FlowMessageClassifierServicer.ClassifyStreaming.
  rewrite consume_created_any by lia.
  destruct (spec_map_Classify (iter_messages it) context _)
    as [[vs e0] w'] eqn:Hrun.
  eexists vs, _, w'. split; [reflexivity|].
  pose proof (spec_map_Classify_length _ _ _ _ _ _ Hrun) as Hlen.
  rewrite iterator_length_messages in Hlen.
  split; [done|]. split; [|split].
  - intros He. destruct e0 as [|ex]; [|done].
    apply spec_map_Classify_inv in Hrun as (_ & _ & _ & Hend).
    rewrite iterator_length_messages in Hend. done.
  - intros fuel Hfuel. rewrite consume_created_any by done.
    by rewrite Hrun.
  - intros n Hn. destruct n as [|n]; [lia|].
    assert (Hstart :
      next_n (S n) (GenCreated it) context w
      = next_n (S n) (GenSuspended it) context
          (log_append [EvPrint "mega printa"] w)) by reflexivity.
    rewrite Hstart, next_n_suspended by done.
    by rewrite Hrun.
Qed.

Lemma stream_always_ends_witness :
  ∃ (vs : list FlowMessageClass) (e : stream_end) (w' : World),
    run_stream (iter_of_list [sample_msg; sample_msg_udp; sample_msg]) 0
      (world_of sample_failing_model)
    = (vs, Some e, w')
    ∧ next_n 5
        (FlowMessageClassifierServicer.ClassifyStreaming
           (iter_of_list [sample_msg; sample_msg_udp; sample_msg]) 0)
        0 (world_of sample_failing_model)
      = ((Yield <$> vs) ++ final_result e
           :: replicate (5 - S (length vs)) StopIteration,
         GenFinished, w').
Proof.
  destruct (stream_always_ends
              (iter_of_list [sample_msg; sample_msg_udp; sample_msg]) 0%nat
              (world_of sample_failing_model))
    as (vs & e & w' & Hrun & _ & _ & _ & Hnext).
  exists vs, e, w'. split; [exact Hrun|].
  apply Hnext. cbn. lia.
Defined.

Example keep_calling_next :
  (next_n 5
     (FlowMessageClassifierServicer.ClassifyStreaming
        (iter_of_list [sample_msg; sample_msg_udp; sample_msg]) 0)
     0 (world_of sample_failing_model)).1
  = ([Yield {| malicious := true |}; Raised (RuntimeError 2);
      StopIteration; StopIteration; StopIteration], GenFinished).
Proof. vm_compute. reflexivity. Qed.

(** X8: what a streaming call logs, over any request iterator: first the
    handler's print, exactly once, then only [predict] calls, each on a
    single row of ten values; there is one call per verdict emitted and at
    most one more, for the record the call failed on. *)
Theorem stream_log_shape
    (it : request_iterator) (context : ServicerContext) (w : World) :
  ∃ evs : list Event,
    events (run_stream it context w).2
    = events w ++ EvPrint "mega printa" :: evs
    ∧ Forall single_row_predict evs
    ∧ length (run_stream it context w).1.1 ≤ length evs
      ≤ S (length (run_stream it context w).1.1).
Proof.
  unfold run_stream, FlowMessageClassifierServicer.ClassifyStreaming.
  rewrite consume_created_any by lia.
  destruct (spec_map_Classify (iter_messages it) context _)
    as [[vs e0] w'] eqn:Hrun.
  apply spec_map_Classify_log in Hrun as (evs & Hev & Hall & Hlen & _).
  rewrite log_append_events, <- app_assoc in Hev.
  exists evs. cbn [fst snd]. split; [exact Hev|]. split; [exact Hall|].
  exact Hlen.
Qed.

(** X10: a streaming call over [msgs] that ends cleanly has called
    [predict] exactly once per record, in the order of the records, each
    time on the single row of that record's ten attributes; its log is the
    print followed by these calls. *)
Theorem clean_stream_predicts_each_record
    (msgs : list FlowMessage) (context : ServicerContext) (w w' : World)
    (vs : list FlowMessageClass) :
  run_stream (iter_of_list msgs) context w = (vs, Some ClosedOk, w') →
  ∃ rows : list (list Z),
    Forall2 (λ m row, extract m feature_names = Return row) msgs rows
    ∧ events w'
      = events w
        ++ EvPrint "mega printa" :: ((λ row, EvPredict [row]) <$> rows).
Proof.
  rewrite run_stream_spec.
  destruct (spec_map_Classify msgs context _) as [[vs0 e0] w0] eqn:Hrun.
  intros [= -> -> ->].
  apply spec_map_Classify_log in Hrun as (evs & Hev & _ & _ & Hok).
  destruct (Hok eq_refl) as (rows & Hrows & ->).
  exists rows. split; [done|].
  by rewrite Hev, log_append_events, <- app_assoc.
Qed.

Lemma clean_stream_predicts_each_record_witness :
  ∃ rows : list (list Z),
    Forall2 (λ m row, extract m feature_names = Return row)
      [sample_msg; sample_msg_80] rows
    ∧ events (run_stream (iter_of_list [sample_msg; sample_msg_80]) 0
                (world_of sample_model)).2
      = events (world_of sample_model)
        ++ EvPrint "mega printa" :: ((λ row, EvPredict [row]) <$> rows).
Proof.
  apply (clean_stream_predicts_each_record [sample_msg; sample_msg_80] 0%nat
           (world_of sample_model) _
           [{| malicious := true |}; {| malicious := false |}]).
  vm_compute. reflexivity.
Defined.

(** ** What request handling logs and what it leaves untouched *)

Lemma logs_handler_events_refl (w : World) : logs_handler_events w w.
Proof. exists []. by rewrite app_nil_r. Qed.

Lemma logs_handler_events_trans (w1 w2 w3 : World) :
  logs_handler_events w1 w2 → logs_handler_events w2 w3 →
  logs_handler_events w1 w3.
Proof.
  intros (e1 & H1 & Ha1) (e2 & H2 & Ha2).
  exists (e1 ++ e2). split; [by rewrite H2, H1, app_assoc|].
  by apply Forall_app.
Qed.

Lemma logs_handler_events_append (evs : list Event) (w : World) :
  Forall handler_event evs → logs_handler_events w (log_append evs w).
Proof. intros Hall. by exists evs. Qed.

Lemma outcome_handler_events (model : option Model) (msg : FlowMessage) :
  Forall handler_event (outcome model msg).2.
Proof.
  eapply Forall_impl; [apply outcome_log_shape|].
  intros e He. by right.
Qed.

Lemma logs_handler_events_loop (it : request_iterator)
    (context : ServicerContext) (w : World) :
  logs_handler_events w
    (FlowMessageClassifierServicer.ClassifyStreaming_loop it context w).2.
Proof.
  destruct it as [| e | msg rest]; [apply logs_handler_events_refl ..|].
  rewrite loop_outcome.
  destruct (outcome (Classifier_model w) msg).1; cbn [snd];
    apply logs_handler_events_append, outcome_handler_events.
Qed.

Lemma logs_handler_events_next (g : generator) (context : ServicerContext)
    (w : World) :
  logs_handler_events w
    (FlowMessageClassifierServicer.ClassifyStreaming_next g context w).2.
Proof.
  destruct g as [it|it|];
    cbn [FlowMessageClassifierServicer.ClassifyStreaming_next].
  - eapply logs_handler_events_trans; [|apply logs_handler_events_loop].
    apply logs_handler_events_append, Forall_singleton. by left.
  - apply logs_handler_events_loop.
  - apply logs_handler_events_refl.
Qed.

Lemma logs_handler_events_consume (fuel : nat) :
  ∀ (g : generator) (context : ServicerContext) (w : World),
    logs_handler_events w (consume fuel g context w).2.
Proof.
  induction fuel as [|fuel IH]; intros g context w;
    [apply logs_handler_events_refl|].
  cbn [consume].
  pose proof (logs_handler_events_next g context w) as Hnext.
  destruct (FlowMessageClassifierServicer.ClassifyStreaming_next g context w)
    as [[[v| |e] g'] w']; cbn [snd] in Hnext |- *; [|done|done].
  specialize (IH g' context w').
  destruct (consume fuel g' context w') as [[vs e] w'']; cbn [snd] in IH |- *.
  by eapply logs_handler_events_trans.
Qed.

Lemma logs_handler_events_operation (op : operation) (w : World) :
  logs_handler_events w (run_operation op w).
Proof.
  destruct op as [msg context | msg | g context | it context];
    cbn [run_operation].
  - rewrite Classify_outcome. cbn [snd].
    apply logs_handler_events_append, outcome_handler_events.
  - rewrite classify_run.
    destruct (Classifier_model w) as [m|]; [|apply logs_handler_events_refl].
    destruct (extract msg feature_names) as [row|e] eqn:Hrow;
      [|apply logs_handler_events_refl].
    apply logs_handler_events_append, Forall_singleton.
    right. exists row. split; [done|]. by apply extract_length in Hrow.
  - apply logs_handler_events_next.
  - apply logs_handler_events_consume.
Qed.

(** X9: whatever sequence of request-time operations runs, the log only
    grows, and only by the streaming handler's print and by [predict]
    calls on a single row of ten values: no operation batches records,
    passes a short or long row, or makes any other logged call. *)
Theorem operations_log_only_handler_events
    (ops : list operation) (w : World) :
  ∃ evs : list Event,
    events (run_operations ops w) = events w ++ evs
    ∧ Forall (λ e, e = EvPrint "mega printa"
                   ∨ ∃ row : list Z, e = EvPredict [row] ∧ length row = 10)
        evs.
Proof.
  revert w. induction ops as [|op ops IH]; intros w.
  - exists []. by rewrite app_nil_r.
  - cbn [run_operations foldl]. fold (run_operations ops (run_operation op w)).
    eapply (logs_handler_events_trans w (run_operation op w));
      [apply logs_handler_events_operation | apply IH].
Qed.

(** X11: no sequence of request-time operations sets or changes a status
    code on any call context: the handlers never use the context they are
    given. *)
Theorem operations_never_set_status (ops : list operation) (w : World) :
  context_code (run_operations ops w) = context_code w.
Proof. by destruct (same_store_operations ops w) as (_ & Hcode & _). Qed.
